(** * geo_utils: WKT detection, AOI normalisation, GeoJSON to Shapefile

    A shallow embedding of [src/geo_utils.py].

    The module has three functions.  All geometry work (WKT parsing, reading
    a vector file, unioning, writing a shapefile) is delegated to shapely and
    geopandas; what the module itself decides is the dispatch on the argument
    types, the try/except structure, and the computation of the destination
    path with [pathlib].  The development therefore consists of

    - [PyStr]: the [str] methods the code and [pathlib] rely on;
    - [PurePath]: the lexical part of [pathlib] for POSIX paths, following
      CPython 3.11's [pathlib.py];
    - [FileSystem]: a lexical model of the directory tree with [os.mkdir] and
      [Path.mkdir];
    - [GeoLibrary]: the interface of the geospatial collaborator, kept
      abstract;
    - [GeoUtils]: the three functions, written in a state-and-exception monad
      whose state is the file system together with the log of collaborator
      calls. *)

From Stdlib Require Import ZArith Ascii String.
From stdpp Require Import base decidable option list gmap strings.

Local Open Scope Z_scope.
#[local] Set Warnings "-clear-no-such-hyp".

(** ** Python strings *)

(** A Python [str] is modelled as a Rocq [string]; characters are 8-bit.
    Only the ASCII letters have a case. *)
Module PyStr.

Definition len (s : string) : Z := Z.of_nat (String.length s).

(** [c in s] *)
Fixpoint contains (c : ascii) (s : string) : bool :=
  match s with
  | EmptyString => false
  | String a s' => if decide (a = c) then true else contains c s'
  end.

(** [s.rfind(c)], counting positions from [i]: the highest index holding
    [c], or [-1]. *)
Fixpoint rfind_from (c : ascii) (s : string) (i : Z) : Z :=
  match s with
  | EmptyString => -1
  | String a s' =>
      let r := rfind_from c s' (i + 1) in
      if 0 <=? r then r else if decide (a = c) then i else -1
  end.

Definition rfind (c : ascii) (s : string) : Z := rfind_from c s 0.

Fixpoint take (n : nat) (s : string) : string :=
  match n, s with
  | S n', String a s' => String a (take n' s')
  | _, _ => EmptyString
  end.

Fixpoint drop (n : nat) (s : string) : string :=
  match n, s with
  | S n', String _ s' => drop n' s'
  | _, _ => s
  end.

(** A slice bound as Python clamps it: negative bounds count from the
    end. *)
Definition clamp (i : Z) (s : string) : nat :=
  Z.to_nat (Z.min (len s) (if i <? 0 then Z.max 0 (len s + i) else i)).

(** [s[i:]] and [s[:i]] *)
Definition slice_from (i : Z) (s : string) : string := drop (clamp i s) s.
Definition slice_to (i : Z) (s : string) : string := take (clamp i s) s.

Definition lower_ascii (a : ascii) : ascii :=
  let n := nat_of_ascii a in
  if ((65 <=? n) && (n <=? 90))%nat then ascii_of_nat (n + 32) else a.

(** [s.lower()] *)
Fixpoint lower (s : string) : string :=
  match s with
  | EmptyString => EmptyString
  | String a s' => String (lower_ascii a) (lower s')
  end.

(** [s.lstrip(c)] *)
Fixpoint lstrip (c : ascii) (s : string) : string :=
  match s with
  | String a s' => if decide (a = c) then lstrip c s' else s
  | EmptyString => EmptyString
  end.

(** [s.split(c)] *)
Fixpoint split (c : ascii) (s : string) : list string :=
  match s with
  | EmptyString => [EmptyString]
  | String a s' =>
      if decide (a = c) then EmptyString :: split c s'
      else match split c s' with
           | x :: xs => String a x :: xs
           | [] => [String a EmptyString]
           end
  end.

(** [s.startswith(t)] *)
Fixpoint startswith (t s : string) : bool :=
  match t, s with
  | EmptyString, _ => true
  | String a t', String b s' => if decide (a = b) then startswith t' s' else false
  | String _ _, EmptyString => false
  end.

End PyStr.

(** ** Exceptions and results *)

(** Exceptions raised by the interpreter, [pathlib], the operating system
    and the geospatial libraries.  All of them derive from [Exception].
    [LibraryError] stands for any other exception class of a collaborator
    (shapely's [GEOSException], pyogrio's [DataSourceError], pyproj's
    [CRSError], [PermissionError], ...). *)
Inductive pyexn :=
  | ValueError (msg : string)
  | FileNotFoundError (filename : string)
  | FileExistsError (filename : string)
  | NotADirectoryError (filename : string)
  | LibraryError (cls msg : string).

(** What a function of this module can raise: an exception of a
    collaborator, unchanged, or the module's own [WKTError], built from the
    exception it caught ([from .exceptions import WKTError]; the class is
    this package's, so no collaborator raises it). *)
Inductive error :=
  | Raised (e : pyexn)
  | WKTError (cause : error).

Inductive outcome (E A : Type) :=
  | Ok (a : A)
  | Raise (e : E).
Arguments Ok {E A} a.
Arguments Raise {E A} e.

Definition is_FileNotFoundError (e : pyexn) : bool :=
  match e with FileNotFoundError _ => true | _ => false end.

(** ** pathlib, lexical part (PurePosixPath) *)

Module PurePath.

Definition sep : ascii := "/"%char.
Definition dot : ascii := "."%char.

(** A path object.  CPython keeps [_drv], [_root] and [_parts], where
    [_parts] starts with the anchor when there is one; the drive is always
    empty on POSIX, and [parts] below leaves the anchor out. *)
Record path := Path { root : string; parts : list string }.

Global Instance path_eq_dec : EqDecision path.
Proof. solve_decision. Defined.

Global Instance path_countable : Countable path.
Proof.
  refine (inj_countable' (fun p => (root p, parts p))
                         (fun t => Path t.1 t.2) _).
  intros []; reflexivity.
Defined.

(** [_PosixFlavour.splitroot] *)
Definition splitroot (part : string) : string * string :=
  match part with
  | String a _ =>
      if decide (a = sep) then
        let stripped_part := PyStr.lstrip sep part in
        if PyStr.len part - PyStr.len stripped_part =? 2
        then ("//", stripped_part)
        else ("/", stripped_part)
      else ("", part)
  | EmptyString => ("", part)
  end.

Definition keep_component (x : string) : bool :=
  negb (bool_decide (x = "")) && negb (bool_decide (x = ".")).

(** [_Flavour.parse_parts] on a single argument: empty and ["."]
    components are dropped.  (The source distinguishes whether [rel]
    contains the separator; [split] of a string without one is that
    string alone, so both branches are this filter.) *)
Definition parse_parts (part : string) : path :=
  let '(rt, rel) := splitroot part in
  Path rt (filter (fun x => Is_true (keep_component x)) (PyStr.split sep rel)).

(** [Path(s)] for a [str] *)
Definition of_str (s : string) : path := parse_parts s.

(** [PurePath.name] *)
Definition name (p : path) : string := List.last (parts p) "".

(** [PurePath.suffix] *)
Definition suffix (p : path) : string :=
  let nm := name p in
  let i := PyStr.rfind dot nm in
  if (0 <? i) && (i <? PyStr.len nm - 1) then PyStr.slice_from i nm else "".

(** [PurePath.stem] *)
Definition stem (p : path) : string :=
  let nm := name p in
  let i := PyStr.rfind dot nm in
  if (0 <? i) && (i <? PyStr.len nm - 1) then PyStr.slice_to i nm else nm.

(** The test [0 < i < len(name) - 1] that [suffix] and [stem] make. *)
Definition has_suffix (nm : string) : bool :=
  (0 <? PyStr.rfind dot nm) && (PyStr.rfind dot nm <? PyStr.len nm - 1).

(** [PurePath.parent] *)
Definition parent (p : path) : path :=
  Path (root p) (List.removelast (parts p)).

(** [str(p)] *)
Fixpoint join_sep (l : list string) : string :=
  match l with
  | [] => ""
  | [x] => x
  | x :: l' => x +:+ "/" +:+ join_sep l'
  end.

Definition to_str (p : path) : string :=
  let s := root p +:+ join_sep (parts p) in
  if bool_decide (s = "") then "." else s.

(** [p / key] for a [str] key: [_make_child] with
    [join_parsed_parts]. *)
Definition joinpath (p : path) (key : string) : path :=
  let q := parse_parts key in
  if bool_decide (root q = "") then Path (root p) (parts p ++ parts q)
  else q.

(** [PurePath.with_suffix] *)
Definition with_suffix (p : path) (sfx : string) : outcome pyexn path :=
  if PyStr.contains sep sfx then Raise (ValueError "Invalid suffix")
  else if (negb (bool_decide (sfx = "")) && negb (PyStr.startswith "." sfx))
          || bool_decide (sfx = ".")
  then Raise (ValueError "Invalid suffix")
  else
    let nm := name p in
    if bool_decide (nm = "") then Raise (ValueError "path has an empty name")
    else
      let old_suffix := suffix p in
      let nm' :=
        if bool_decide (old_suffix = "") then nm +:+ sfx
        else PyStr.slice_to (- PyStr.len old_suffix) nm +:+ sfx in
      Ok (Path (root p) (List.removelast (parts p) ++ [nm'])).

(** What every path object satisfies: the root is one of the three POSIX
    anchors, and a component is neither empty nor ["."] and holds no
    separator. *)
Definition component_ok (x : string) : bool :=
  keep_component x && negb (PyStr.contains sep x).

Definition root_ok (rt : string) : bool :=
  bool_decide (rt = "") || bool_decide (rt = "/") || bool_decide (rt = "//").

Definition wf_path (p : path) : Prop :=
  Is_true (root_ok (root p)) /\
  Forall (fun x => Is_true (component_ok x)) (parts p).

End PurePath.

Export PurePath.

(** ** The file system *)

(** The directory tree as a finite map from paths to nodes.  The model is
    lexical: a path is looked up as it is spelled, there are no symbolic
    links, and [".."] is an ordinary component.  The anchors ([/], [//] and
    the working directory, the paths without components) are always
    directories. *)
Module FileSystem.

Inductive node :=
  | Dir
  | File (content : string).

Abbreviation fs := (gmap path node).

Definition lookup_node (f : fs) (p : path) : option node :=
  match parts p with
  | [] => Some Dir
  | _ :: _ => f !! p
  end.

(** [Path.is_dir] *)
Definition is_dir (f : fs) (p : path) : bool :=
  match lookup_node f p with
  | Some Dir => true
  | _ => false
  end.

(** [os.mkdir(p)] *)
Definition os_mkdir (p : path) (f : fs) : outcome pyexn fs :=
  match lookup_node f p with
  | Some _ => Raise (FileExistsError (to_str p))
  | None =>
      match lookup_node f (parent p) with
      | None => Raise (FileNotFoundError (to_str p))
      | Some (File _) => Raise (NotADirectoryError (to_str p))
      | Some Dir => Ok (<[p := Dir]> f)
      end
  end.

(** [Path.mkdir(parents=False, exist_ok=exist_ok)]: the handler of
    [FileNotFoundError] re-raises, the handler of the other [OSError]s
    re-raises unless the directory is there and [exist_ok] is set. *)
Definition mkdir_here (p : path) (exist_ok : bool) (f : fs)
  : outcome pyexn fs :=
  match os_mkdir p f with
  | Ok f' => Ok f'
  | Raise e =>
      if is_FileNotFoundError e then Raise e
      else if negb exist_ok || negb (is_dir f p) then Raise e
      else Ok f
  end.

(** [Path.mkdir(parents=True, exist_ok=exist_ok)] on the path with root
    [rt] and components [rev up].  The recursive call is on the parent,
    which is the path without its last component; [self.parent == self]
    holds exactly when there is no component left. *)
Fixpoint mkdir_parents (rt : string) (up : list string) (exist_ok : bool)
    (f : fs) : outcome pyexn fs :=
  let self := Path rt (rev up) in
  match os_mkdir self f with
  | Ok f' => Ok f'
  | Raise e =>
      if is_FileNotFoundError e then
        match up with
        | [] => Raise e
        | _ :: up' =>
            match mkdir_parents rt up' true f with
            | Raise e' => Raise e'
            | Ok f1 => mkdir_here self exist_ok f1
            end
        end
      else if negb exist_ok || negb (is_dir f self) then Raise e
      else Ok f
  end.

(** [Path.mkdir(parents=parents, exist_ok=exist_ok)] *)
Definition mkdir (p : path) (parents exist_ok : bool) (f : fs)
  : outcome pyexn fs :=
  if parents then mkdir_parents (root p) (rev (parts p)) exist_ok f
  else mkdir_here p exist_ok f.

(** [p.parents], nearest first, and [p] itself in front. *)
Fixpoint ancestors_rev (rt : string) (up : list string) : list path :=
  Path rt (rev up) ::
  match up with
  | [] => []
  | _ :: up' => ancestors_rev rt up'
  end.

Definition self_and_parents (p : path) : list path :=
  ancestors_rev (root p) (rev (parts p)).

(** Every node sits in a directory. *)
Definition fs_wf (f : fs) : Prop :=
  forall p n, f !! p = Some n -> parts p <> [] -> is_dir f (parent p) = true.

(** [f1] is [f] with directories added at some of the paths in [l], and
    nothing else changed. *)
Definition adds_dirs (f f1 : fs) (l : list path) : Prop :=
  forall k, f1 !! k = f !! k \/
            (f !! k = None /\ f1 !! k = Some Dir /\ k ∈ l).

(** No regular file sits at any of the paths in [l]. *)
Definition no_file_at (f : fs) (l : list path) : Prop :=
  Forall (fun a => forall c, lookup_node f a <> Some (File c)) l.

End FileSystem.

Export FileSystem.

(** ** The geospatial collaborator *)

(** [Path | str] *)
Inductive pathlike :=
  | AsStr (s : string)
  | AsPath (p : path).

(** [Path(x)] *)
Definition to_path (x : pathlike) : path :=
  match x with
  | AsStr s => of_str s
  | AsPath p => p
  end.

Definition pathlike_wf (x : pathlike) : Prop :=
  match x with
  | AsStr _ => True
  | AsPath p => wf_path p
  end.

(** [str | int], a CRS specifier *)
Inductive crs_spec :=
  | CrsName (s : string)
  | CrsCode (n : Z).

(** shapely and geopandas, as far as this module calls them.  Nothing is
    assumed about what the operations compute. *)
Class GeoLibrary := {
  geometry : Type;
  GeoDataFrame : Type;
  CRS : Type;
  (** [shapely.wkt.loads(text)] *)
  loads : string -> outcome pyexn geometry;
  (** [gpd.read_file(src)] *)
  read_file : pathlike -> fs -> outcome pyexn GeoDataFrame;
  (** [gdf.unary_union] *)
  unary_union : GeoDataFrame -> outcome pyexn geometry;
  (** [geom.wkt] *)
  wkt : geometry -> outcome pyexn string;
  (** [gdf.crs] *)
  crs : GeoDataFrame -> option CRS;
  (** [gdf.set_crs(spec)] *)
  set_crs : GeoDataFrame -> crs_spec -> outcome pyexn GeoDataFrame;
  (** [gdf.to_crs(spec)], the reprojection *)
  to_crs : GeoDataFrame -> crs_spec -> outcome pyexn GeoDataFrame;
  (** [gdf.to_file(p, driver=driver)]: what it leaves on disk, also when it
      raises *)
  to_file : GeoDataFrame -> path -> string -> fs -> option pyexn * fs
}.

(** ** The module *)

Module GeoUtils.
Section WithLibrary.

Context {lib : GeoLibrary}.

(** *** State and exceptions *)

(** A call into a collaborator that touches the disk or the dataset's
    reference system. *)
Inductive call :=
  | CallMkdir (p : path) (parents exist_ok : bool)
  | CallReadFile (src : pathlike)
  | CallSetCrs (gdf : GeoDataFrame) (spec : crs_spec)
  | CallToCrs (gdf : GeoDataFrame) (spec : crs_spec)
  | CallToFile (gdf : GeoDataFrame) (p : path) (driver : string).

(** The state a call runs in: the disk, and the calls made so far, oldest
    first. *)
Record world := World { files : fs; calls : list call }.

Definition M (A : Type) : Type := world -> outcome error A * world.

Definition ret {A} (a : A) : M A := fun w => (Ok a, w).

Definition raise {A} (e : error) : M A := fun w => (Raise e, w).

Definition bind {A B} (c : M A) (k : A -> M B) : M B :=
  fun w =>
    match c w with
    | (Ok a, w') => k a w'
    | (Raise e, w') => (Raise e, w')
    end.

(** [try: body except Exception as e: handler(e)] *)
Definition try_except {A} (body : M A) (handler : error -> M A) : M A :=
  fun w =>
    match body w with
    | (Ok a, w') => (Ok a, w')
    | (Raise e, w') => handler e w'
    end.

Definition log (c : call) (w : world) : world :=
  World (files w) (calls w ++ [c]).

(** A call that neither reads nor writes the state. *)
Definition pure_call {A} (r : outcome pyexn A) : M A :=
  fun w =>
    match r with
    | Ok a => (Ok a, w)
    | Raise e => (Raise (Raised e), w)
    end.

Notation "x <- c ;; k" := (bind c (fun x => k))
  (at level 100, c at next level, right associativity).

(** *** The collaborators' calls in the monad *)

(** [p.mkdir(parents=parents, exist_ok=exist_ok)] *)
Definition path_mkdir (p : path) (parents exist_ok : bool) : M unit :=
  fun w =>
    let w' := log (CallMkdir p parents exist_ok) w in
    match mkdir p parents exist_ok (files w) with
    | Ok f' => (Ok tt, World f' (calls w'))
    | Raise e => (Raise (Raised e), w')
    end.

(** [gpd.read_file(src)] *)
Definition gpd_read_file (src : pathlike) : M GeoDataFrame :=
  fun w =>
    let w' := log (CallReadFile src) w in
    match read_file src (files w) with
    | Ok gdf => (Ok gdf, w')
    | Raise e => (Raise (Raised e), w')
    end.

(** [gdf.set_crs(spec)] *)
Definition gdf_set_crs (gdf : GeoDataFrame) (spec : crs_spec)
  : M GeoDataFrame :=
  fun w => pure_call (set_crs gdf spec) (log (CallSetCrs gdf spec) w).

(** [gdf.to_file(p, driver=driver)] *)
Definition gdf_to_file (gdf : GeoDataFrame) (p : path) (driver : string)
  : M unit :=
  fun w =>
    let w' := log (CallToFile gdf p driver) w in
    match to_file gdf p driver (files w) with
    | (None, f') => (Ok tt, World f' (calls w'))
    | (Some e, f') => (Raise (Raised e), World f' (calls w'))
    end.

(** *** [is_wkt] *)

Definition is_wkt (text : string) : M bool :=
  try_except
    (_ <- pure_call (loads text) ;;
     ret true)
    (fun _ => ret false).

(** *** [to_openeo_wkt] *)

Definition to_openeo_wkt (aoi : option pathlike) : M (option string) :=
  match aoi with
  | None => ret None
  | Some (AsStr s) =>
      valid <- is_wkt s ;;
      if (valid : bool) then ret (Some s)
      else
        try_except
          (gdf <- gpd_read_file (AsStr s) ;;
           u <- pure_call (unary_union gdf) ;;
           t <- pure_call (wkt u) ;;
           ret (Some t))
          (fun e => raise (WKTError e))
  | Some (AsPath p) =>
      try_except
        (gdf <- gpd_read_file (AsPath p) ;;
         u <- pure_call (unary_union gdf) ;;
         t <- pure_call (wkt u) ;;
         ret (Some t))
        (fun e => raise (WKTError e))
  end.

(** Whether [to_openeo_wkt] goes on to read [aoi] as a file: always for a
    path object, and for a string when [shapely] does not parse it. *)
Definition read_as_file (aoi : pathlike) : bool :=
  match aoi with
  | AsPath _ => true
  | AsStr s => match loads s with Ok _ => false | Raise _ => true end
  end.

(** *** [geojson_to_shapefile] *)

(** Lines 53 to 65: the destination path. *)
Definition output_path_of (input_path : path)
    (shapefile_path : option pathlike) : outcome pyexn path :=
  match shapefile_path with
  | None => with_suffix input_path ".shp"
  | Some sp =>
      let output_candidate := to_path sp in
      if bool_decide (PyStr.lower (suffix output_candidate) = "") then
        Ok (joinpath output_candidate (stem input_path +:+ ".shp"))
      else if negb (bool_decide (PyStr.lower (suffix output_candidate) = ".shp"))
      then with_suffix output_candidate ".shp"
      else Ok output_candidate
  end.

(** Lines 71 and 72: the dataset that is written. *)
Definition label_crs (gdf : GeoDataFrame) (force_crs : option crs_spec)
  : M GeoDataFrame :=
  match crs gdf, force_crs with
  | None, Some spec => gdf_set_crs gdf spec
  | _, _ => ret gdf
  end.

(** The value of [label_crs], and the call it makes. *)
Definition labelled (gdf : GeoDataFrame) (force_crs : option crs_spec)
  : outcome pyexn GeoDataFrame :=
  match crs gdf, force_crs with
  | None, Some spec => set_crs gdf spec
  | _, _ => Ok gdf
  end.

Definition label_calls (gdf : GeoDataFrame) (force_crs : option crs_spec)
  : list call :=
  match crs gdf, force_crs with
  | None, Some spec => [CallSetCrs gdf spec]
  | _, _ => []
  end.

Definition geojson_to_shapefile (geojson_path : pathlike)
    (shapefile_path : option pathlike) (force_crs : option crs_spec)
  : M path :=
  let input_path := to_path geojson_path in
  output_path <- pure_call (output_path_of input_path shapefile_path) ;;
  _ <- path_mkdir (parent output_path) true true ;;
  gdf <- gpd_read_file (AsPath input_path) ;;
  gdf <- label_crs gdf force_crs ;;
  _ <- gdf_to_file gdf output_path "ESRI Shapefile" ;;
  ret output_path.

End WithLibrary.
End GeoUtils.


(** ** A small collaborator to run the module against *)

(** Points only.  A geometry is the list of its coordinate pairs as text; a
    file holds one WKT point per [;]-separated record; a directory is read
    through its first file, as OGR reads a directory of layers. *)
Module Demo.

Definition coord_char (a : ascii) : bool :=
  let n := nat_of_ascii a in
  ((48 <=? n) && (n <=? 57))%nat || bool_decide (a = " "%char)
  || bool_decide (a = "-"%char) || bool_decide (a = "."%char).

Fixpoint all_coord (s : string) : bool :=
  match s with
  | EmptyString => true
  | String a s' => coord_char a && all_coord s'
  end.

Definition strip_prefix (t s : string) : option string :=
  if PyStr.startswith t s then Some (PyStr.drop (String.length t) s) else None.

Definition parse_point (text : string) : option string :=
  match strip_prefix "POINT (" text with
  | Some rest =>
      let body := PyStr.slice_to (-1) rest in
      if bool_decide (PyStr.slice_from (-1) rest = ")")
         && negb (bool_decide (body = "")) && all_coord body
      then Some body else None
  | None => None
  end.

Record frame := Frame { rows : list string; frame_crs : option Z }.

Definition demo_loads (text : string) : outcome pyexn (list string) :=
  match parse_point text with
  | Some c => Ok [c]
  | None => Raise (LibraryError "GEOSException" "ParseException")
  end.

Definition parse_records (content : string) : outcome pyexn frame :=
  match mapM parse_point (PyStr.split ";"%char content) with
  | Some cs => Ok (Frame cs None)
  | None => Raise (LibraryError "DataSourceError" "not a supported format")
  end.

Definition first_file_in (f : fs) (d : path) : option string :=
  head (omap (fun kn : path * node =>
                match kn.2 with
                | File c =>
                    if bool_decide (parent kn.1 = d) then Some c else None
                | Dir => None
                end) (map_to_list f)).

Definition demo_read_file (src : pathlike) (f : fs) : outcome pyexn frame :=
  let p := to_path src in
  match lookup_node f p with
  | None => Raise (LibraryError "DataSourceError" "No such file or directory")
  | Some (File c) => parse_records c
  | Some Dir =>
      match first_file_in f p with
      | Some c => parse_records c
      | None => Raise (LibraryError "DataSourceError" "not a supported format")
      end
  end.

Definition render_point (c : string) : string := "POINT (" +:+ c +:+ ")".

Fixpoint join_with (d : string) (l : list string) : string :=
  match l with
  | [] => ""
  | [x] => x
  | x :: l' => x +:+ d +:+ join_with d l'
  end.

Definition demo_wkt (g : list string) : outcome pyexn string :=
  match g with
  | [] => Ok "GEOMETRYCOLLECTION EMPTY"
  | [c] => Ok (render_point c)
  | _ => Ok ("MULTIPOINT (" +:+ join_with ", " g +:+ ")")
  end.

Definition lookup_crs (spec : crs_spec) : outcome pyexn Z :=
  match spec with
  | CrsCode n =>
      if (1024 <=? n) && (n <=? 32767) then Ok n
      else Raise (LibraryError "CRSError" "Invalid projection")
  | CrsName s =>
      if bool_decide (s = "EPSG:4326") then Ok 4326
      else if bool_decide (s = "EPSG:3857") then Ok 3857
      else Raise (LibraryError "CRSError" "Invalid projection")
  end.

Definition demo_set_crs (d : frame) (spec : crs_spec) : outcome pyexn frame :=
  match lookup_crs spec with
  | Raise e => Raise e
  | Ok c =>
      match frame_crs d with
      | Some c0 =>
          if bool_decide (c0 = c) then Ok d
          else Raise (ValueError "The GeoDataFrame already has a CRS")
      | None => Ok (Frame (rows d) (Some c))
      end
  end.

Definition demo_to_crs (d : frame) (spec : crs_spec) : outcome pyexn frame :=
  match lookup_crs spec with
  | Raise e => Raise e
  | Ok c =>
      match frame_crs d with
      | Some c0 =>
          if bool_decide (c0 = c) then Ok d
          else Ok (Frame ((fun r => "0 0") <$> rows d) (Some c))
      | None => Raise (ValueError "Cannot transform naive geometries")
      end
  end.

Definition demo_to_file (d : frame) (p : path) (driver : string) (f : fs)
  : option pyexn * fs :=
  if is_dir f (parent p) && negb (is_dir f p) then
    (None, <[p := File (join_with ";" (render_point <$> rows d))]> f)
  else (Some (LibraryError "DriverError" "Failed to create file"), f).

#[export] Instance demo_library : GeoLibrary := {|
  geometry := list string;
  GeoDataFrame := frame;
  CRS := Z;
  loads := demo_loads;
  read_file := demo_read_file;
  unary_union := fun d => Ok (rows d);
  wkt := demo_wkt;
  crs := frame_crs;
  set_crs := demo_set_crs;
  to_crs := demo_to_crs;
  to_file := demo_to_file
|}.

(** A disk with one readable file, [data.geojson], next to a regular file
    [blocker]. *)
Definition demo_disk : fs :=
  <[of_str "data.geojson" := File "POINT (1 2);POINT (3 4)"]>
    (<[of_str "blocker" := File "x"]> ∅).

Definition demo_world : GeoUtils.world := GeoUtils.World demo_disk [].

(** A working directory that holds one layer. *)
Definition layer_disk : fs := <[of_str "layer.shp" := File "POINT (5 6)"]> ∅.

Definition layer_world : GeoUtils.world := GeoUtils.World layer_disk [].

End Demo.

(** The same collaborator reading files whose records carry a reference
    system, WGS 84. *)
Module DemoLabelled.
Import Demo.

Definition read_file_wgs84 (src : pathlike) (f : fs) : outcome pyexn frame :=
  match demo_read_file src f with
  | Ok d => Ok (Frame (rows d) (Some 4326))
  | Raise e => Raise e
  end.

Definition wgs84_library : GeoLibrary := {|
  geometry := list string;
  GeoDataFrame := frame;
  CRS := Z;
  loads := demo_loads;
  read_file := read_file_wgs84;
  unary_union := fun d => Ok (rows d);
  wkt := demo_wkt;
  crs := frame_crs;
  set_crs := demo_set_crs;
  to_crs := demo_to_crs;
  to_file := demo_to_file
|}.

Definition wgs84_world : @GeoUtils.world wgs84_library :=
  GeoUtils.World demo_disk [].

End DemoLabelled.


(** * Properties *)

(** ** Strings *)

Module PyStrFacts.
Import PyStr.

Lemma app_nil_l (s : string) : "" +:+ s = s.
Proof. reflexivity. Qed.

Lemma app_cons (a : ascii) (s t : string) :
  String a s +:+ t = String a (s +:+ t).
Proof. reflexivity. Qed.

Lemma len_nonneg (s : string) : 0 <= len s.
Proof. unfold len. lia. Qed.

Lemma len_cons (a : ascii) (s : string) : len (String a s) = len s + 1.
Proof. unfold len. simpl String.length. lia. Qed.

Lemma len_app (s t : string) : len (s +:+ t) = len s + len t.
Proof.
  induction s as [|a s IH].
  - rewrite app_nil_l. unfold len. simpl. lia.
  - rewrite app_cons, !len_cons, IH. lia.
Qed.

Lemma len_zero (s : string) : len s = 0 -> s = "".
Proof. destruct s; [reflexivity | rewrite len_cons; pose proof (len_nonneg s); lia]. Qed.

Lemma take_app_exact (s t : string) : take (String.length s) (s +:+ t) = s.
Proof.
  induction s as [|a s IH]; simpl.
  - reflexivity.
  - by rewrite IH.
Qed.

Lemma drop_app_exact (s t : string) : drop (String.length s) (s +:+ t) = t.
Proof.
  induction s as [|a s IH]; simpl.
  - reflexivity.
  - exact IH.
Qed.

Lemma take_drop (n : nat) (s : string) : take n s +:+ drop n s = s.
Proof.
  revert s. induction n as [|n IH]; intros [|a s]; simpl; try reflexivity.
  by rewrite app_cons, IH.
Qed.

Lemma len_drop (n : nat) (s : string) :
  (n <= String.length s)%nat -> len (drop n s) = len s - Z.of_nat n.
Proof.
  revert s. induction n as [|n IH]; intros [|a s] Hn; simpl in *;
    unfold len in *; simpl; try lia.
  specialize (IH s). lia.
Qed.

Lemma take_nonempty (n : nat) (s : string) :
  (0 < n)%nat -> s <> "" -> take n s <> "".
Proof. destruct n, s; simpl; intros; try lia; congruence. Qed.

Lemma contains_app (c : ascii) (s t : string) :
  contains c (s +:+ t) = contains c s || contains c t.
Proof.
  induction s as [|a s IH]; [reflexivity|].
  rewrite app_cons. simpl. destruct (decide (a = c)); [reflexivity | exact IH].
Qed.

Lemma contains_take (c : ascii) (n : nat) (s : string) :
  contains c s = false -> contains c (take n s) = false.
Proof.
  revert s. induction n as [|n IH]; intros [|a s]; simpl; try reflexivity.
  destruct (decide (a = c)); [discriminate | apply IH].
Qed.

(** The last dot of [s.shp] is the one in front of [shp]. *)
Lemma rfind_from_shp (s : string) (i : Z) :
  0 <= i -> rfind_from "."%char (s +:+ ".shp") i = i + len s.
Proof.
  revert i. induction s as [|a s IH]; intros i Hi.
  - rewrite app_nil_l. unfold len. simpl.
    repeat (case_decide; try congruence); simpl; lia.
  - rewrite app_cons, len_cons. simpl. rewrite IH by lia.
    pose proof (len_nonneg s).
    destruct (Z.leb_spec 0 (i + 1 + len s)); lia.
Qed.

Lemma rfind_shp (s : string) : rfind "."%char (s +:+ ".shp") = len s.
Proof. unfold rfind. rewrite rfind_from_shp; lia. Qed.

Lemma rfind_from_bound (c : ascii) (s : string) (i : Z) :
  rfind_from c s i = -1 \/ i <= rfind_from c s i < i + len s.
Proof.
  revert i. induction s as [|a s IH]; intros i; simpl; [by left|].
  rewrite len_cons. destruct (IH (i + 1)) as [-> | H].
  - simpl. case_decide; [right | left]; pose proof (len_nonneg s); lia.
  - destruct (Z.leb_spec 0 (rfind_from c s (i + 1))); [right; lia|].
    case_decide; [right | left]; pose proof (len_nonneg s); lia.
Qed.

Lemma clamp_inside (i : Z) (s : string) :
  0 <= i <= len s -> clamp i s = Z.to_nat i.
Proof.
  intros H. unfold clamp. destruct (Z.ltb_spec i 0); [lia|].
  f_equal. lia.
Qed.

Lemma clamp_from_end (k : Z) (s : string) :
  0 < k <= len s -> clamp (- k) s = Z.to_nat (len s - k).
Proof.
  intros H. unfold clamp. destruct (Z.ltb_spec (- k) 0); [|lia].
  f_equal. lia.
Qed.

Lemma lower_empty (s : string) : lower s = "" <-> s = "".
Proof. destruct s; simpl; split; congruence. Qed.

Lemma split_no_sep (c : ascii) (s : string) :
  contains c s = false -> split c s = [s].
Proof.
  induction s as [|a s IH]; simpl; [reflexivity|].
  destruct (decide (a = c)); [discriminate|].
  intros H. by rewrite (IH H).
Qed.

Lemma split_components (c : ascii) (s : string) :
  Forall (fun x => contains c x = false) (split c s).
Proof.
  induction s as [|a s IH]; simpl.
  - by constructor.
  - destruct (decide (a = c)) as [|Hne].
    + by constructor.
    + destruct (split c s) as [|x xs].
      * constructor; [|constructor]. simpl. by rewrite decide_False.
      * inversion IH; subst. constructor; [|assumption].
        simpl. by rewrite decide_False.
Qed.

End PyStrFacts.

(** ** Paths *)

Module PurePathFacts.
Import PyStr PyStrFacts.

(** [pathlib] on a few paths. *)
Example of_str_collapses :
  of_str "//srv/./maps//aoi.geojson" = Path "//" ["srv"; "maps"; "aoi.geojson"] /\
  of_str "///srv" = Path "/" ["srv"] /\
  of_str "outdir/" = Path "" ["outdir"] /\
  of_str "" = Path "" [] /\ of_str "." = Path "" [] /\
  to_str (of_str "") = ".".
Proof. by split_and!. Qed.

Example suffix_and_stem :
  suffix (of_str "a/b.tar.gz") = ".gz" /\ stem (of_str "a/b.tar.gz") = "b.tar" /\
  suffix (of_str ".hidden") = "" /\ stem (of_str ".hidden") = ".hidden" /\
  suffix (of_str "trailing.") = "" /\ suffix (of_str "x.SHP") = ".SHP" /\
  suffix (of_str "/") = "" /\ stem (of_str "/") = "".
Proof. by split_and!. Qed.

Example with_suffix_replaces :
  with_suffix (of_str "out.geojson") ".shp" = Ok (of_str "out.shp") /\
  with_suffix (of_str "dir/noext") ".shp" = Ok (of_str "dir/noext.shp") /\
  with_suffix (of_str "/") ".shp" = Raise (ValueError "path has an empty name").
Proof. by split_and!. Qed.

Lemma name_snoc (rt : string) (l : list string) (x : string) :
  name (Path rt (l ++ [x])) = x.
Proof. unfold name. simpl. apply last_last. Qed.

Lemma parent_snoc (rt : string) (l : list string) (x : string) :
  parent (Path rt (l ++ [x])) = Path rt l.
Proof. unfold parent. simpl. by rewrite removelast_last. Qed.

Lemma parts_name (p : path) :
  name p <> "" -> parts p = List.removelast (parts p) ++ [name p].
Proof.
  intros H. unfold name in *. apply app_removelast_last.
  intros E. rewrite E in H. by apply H.
Qed.

Lemma suffix_unfold (p : path) :
  suffix p = if has_suffix (name p) then slice_from (rfind dot (name p)) (name p)
             else "".
Proof. reflexivity. Qed.

Lemma stem_unfold (p : path) :
  stem p = if has_suffix (name p) then slice_to (rfind dot (name p)) (name p)
           else name p.
Proof. reflexivity. Qed.

Lemma has_suffix_bounds (nm : string) :
  has_suffix nm = true -> 0 < rfind dot nm < len nm - 1.
Proof. unfold has_suffix. intros [? ?]%andb_true_iff. lia. Qed.

Lemma name_split (p : path) : name p = stem p +:+ suffix p.
Proof.
  rewrite suffix_unfold, stem_unfold.
  destruct (has_suffix (name p)).
  - unfold slice_to, slice_from. by rewrite take_drop.
  - generalize (name p). induction s as [|a s IH]; [reflexivity|].
    rewrite app_cons. by rewrite <- IH.
Qed.

Lemma suffix_len (p : path) :
  has_suffix (name p) = true ->
  len (suffix p) = len (name p) - rfind dot (name p).
Proof.
  intros H. rewrite suffix_unfold, H.
  pose proof (has_suffix_bounds _ H) as Hb.
  unfold slice_from. rewrite clamp_inside by lia.
  rewrite len_drop; unfold len in *; lia.
Qed.

Lemma suffix_empty_iff (p : path) :
  suffix p = "" <-> has_suffix (name p) = false.
Proof.
  split.
  - intros E. destruct (has_suffix (name p)) eqn:H; [|reflexivity].
    pose proof (suffix_len p H) as Hl. pose proof (has_suffix_bounds _ H).
    rewrite E in Hl. unfold len in Hl at 1. simpl in Hl. lia.
  - intros H. by rewrite suffix_unfold, H.
Qed.

Lemma suffix_nonempty_name (p : path) : suffix p <> "" -> name p <> "".
Proof.
  intros H E. apply H. rewrite suffix_unfold, E. reflexivity.
Qed.

Lemma stem_nonempty (p : path) : name p <> "" -> stem p <> "".
Proof.
  intros Hn. rewrite stem_unfold.
  destruct (has_suffix (name p)) eqn:H; [|assumption].
  pose proof (has_suffix_bounds _ H).
  unfold slice_to. rewrite clamp_inside by lia.
  apply take_nonempty; [lia | assumption].
Qed.

Lemma stem_no_sep (p : path) :
  contains sep (name p) = false -> contains sep (stem p) = false.
Proof.
  intros H. rewrite stem_unfold. destruct (has_suffix (name p)); [|assumption].
  unfold slice_to. by apply contains_take.
Qed.

(** A name [s.shp] with [s] not empty has stem [s] and suffix [.shp]. *)
Lemma shp_name (p : path) (s : string) :
  name p = s +:+ ".shp" -> s <> "" -> stem p = s /\ suffix p = ".shp".
Proof.
  intros Hn Hs.
  assert (0 < len s) as Hpos.
  { pose proof (len_nonneg s). destruct (decide (len s = 0)) as [E|]; [|lia].
    by apply len_zero in E. }
  assert (has_suffix (name p) = true) as H.
  { unfold has_suffix. rewrite Hn, rfind_shp, len_app.
    change (len ".shp") with 4.
    apply andb_true_iff. split; apply Z.ltb_lt; lia. }
  rewrite stem_unfold, suffix_unfold, H, Hn, rfind_shp.
  unfold slice_to, slice_from.
  rewrite clamp_inside by (rewrite len_app; change (len ".shp") with 4; lia).
  unfold len. rewrite Nat2Z.id.
  by rewrite take_app_exact, drop_app_exact.
Qed.

(** The name [.shp] alone is a hidden file without suffix. *)
Lemma shp_hidden (rt : string) (l : list string) :
  suffix (Path rt (l ++ [".shp"])) = "".
Proof. rewrite suffix_unfold, name_snoc. reflexivity. Qed.

(** [with_suffix(".shp")] replaces the suffix of the name, and needs a
    name. *)
Lemma with_suffix_shp (p : path) :
  with_suffix p ".shp" =
    if bool_decide (name p = "") then Raise (ValueError "path has an empty name")
    else Ok (Path (root p) (List.removelast (parts p) ++ [stem p +:+ ".shp"])).
Proof.
  unfold with_suffix.
  change (contains sep ".shp") with false. cbv iota.
  change ((negb (bool_decide (".shp" = "")) && negb (startswith "." ".shp"))
          || bool_decide (".shp" = ".")) with false. cbv iota. cbv zeta.
  case_bool_decide as Hn; [reflexivity|].
  do 3 f_equal.
  case_bool_decide as Hs.
  - apply suffix_empty_iff in Hs. by rewrite stem_unfold, Hs.
  - assert (has_suffix (name p) = true) as H.
    { destruct (has_suffix (name p)) eqn:E; [reflexivity|].
      exfalso. apply Hs. by apply suffix_empty_iff. }
    pose proof (has_suffix_bounds _ H) as Hb.
    rewrite (suffix_len p H), stem_unfold, H.
    unfold slice_to.
    rewrite (clamp_from_end (len (name p) - rfind dot (name p))) by lia.
    rewrite clamp_inside by lia.
    by replace (len (name p) - (len (name p) - rfind dot (name p)))
      with (rfind dot (name p)) by lia.
Qed.

Lemma with_suffix_shp_ok (p q : path) :
  with_suffix p ".shp" = Ok q ->
  name p <> "" /\ parent q = parent p /\ stem q = stem p /\ suffix q = ".shp".
Proof.
  rewrite with_suffix_shp. case_bool_decide as Hn; [discriminate|].
  intros [= <-]. split; [assumption|]. rewrite parent_snoc.
  split; [reflexivity|].
  apply shp_name; [apply name_snoc | by apply stem_nonempty].
Qed.

Lemma component_ok_no_sep (x : string) :
  Is_true (component_ok x) -> contains sep x = false.
Proof.
  unfold component_ok. intros [_ H]%andb_prop_elim.
  by destruct (contains sep x).
Qed.

Lemma wf_name_no_sep (p : path) :
  wf_path p -> contains sep (name p) = false.
Proof.
  intros [_ H].
  destruct (decide (name p = "")) as [->|Hn]; [reflexivity|].
  pose proof (parts_name p Hn) as E. rewrite E in H.
  apply Forall_app in H as [_ H].
  inversion H; subst. by apply component_ok_no_sep.
Qed.

Lemma splitroot_spec (s : string) :
  Is_true (root_ok (splitroot s).1) /\
  (contains sep s = false -> splitroot s = ("", s)).
Proof.
  unfold splitroot. destruct s as [|a s]; [done|].
  destruct (decide (a = sep)) as [->|Hne].
  - split; [by case_match|].
    simpl. discriminate.
  - split; [done|reflexivity].
Qed.

Lemma parse_parts_wf (s : string) : wf_path (parse_parts s).
Proof.
  unfold parse_parts. pose proof (splitroot_spec s) as [Hr _].
  destruct (splitroot s) as [rt rel]. split; [exact Hr|]. simpl.
  apply Forall_forall. intros x [Hk Hx]%list_elem_of_filter.
  pose proof (split_components sep rel) as Hc.
  rewrite Forall_forall in Hc. specialize (Hc x Hx).
  unfold component_ok. rewrite Hc.
  apply andb_prop_intro. split; [assumption | done].
Qed.

Lemma of_str_wf (s : string) : wf_path (of_str s).
Proof. apply parse_parts_wf. Qed.

Lemma to_path_wf (x : pathlike) : pathlike_wf x -> wf_path (to_path x).
Proof. destruct x; simpl; [intros _; apply of_str_wf | done]. Qed.

(** A single admissible component parses to itself. *)
Lemma parse_parts_component (x : string) :
  Is_true (component_ok x) -> parse_parts x = Path "" [x].
Proof.
  intros H. pose proof (component_ok_no_sep x H) as Hs.
  unfold parse_parts. rewrite (proj2 (splitroot_spec x) Hs).
  rewrite (split_no_sep _ _ Hs).
  apply andb_prop_elim in H as [Hk _].
  rewrite filter_cons_True by assumption. reflexivity.
Qed.

Lemma shp_component (s : string) :
  contains sep s = false -> Is_true (component_ok (s +:+ ".shp")).
Proof.
  intros H. unfold component_ok, keep_component.
  rewrite contains_app, H.
  assert (3 < len (s +:+ ".shp")) as Hl.
  { rewrite len_app. pose proof (len_nonneg s). change (len ".shp") with 4. lia. }
  repeat case_bool_decide; try done;
    match goal with E : _ = _ |- _ => rewrite E in Hl; unfold len in Hl; simpl in Hl; lia end.
Qed.

(** Joining the file name made from a stem puts it below the directory. *)
Lemma joinpath_stem (dir p : path) :
  wf_path p ->
  joinpath dir (stem p +:+ ".shp") =
    Path (root dir) (parts dir ++ [stem p +:+ ".shp"]).
Proof.
  intros Hwf. unfold joinpath.
  rewrite parse_parts_component; [reflexivity|].
  apply shp_component, stem_no_sep, wf_name_no_sep, Hwf.
Qed.

End PurePathFacts.

(** ** Directory creation *)

Module FileSystemFacts.

Lemma is_dir_lookup (f : fs) (p : path) :
  is_dir f p = true <-> lookup_node f p = Some Dir.
Proof.
  unfold is_dir. destruct (lookup_node f p) as [[|c]|]; split; congruence.
Qed.

Lemma is_dir_insert (f : fs) (p x : path) :
  is_dir f x = true -> is_dir (<[p := Dir]> f) x = true.
Proof.
  unfold is_dir, lookup_node. destruct (parts x); [done|].
  destruct (decide (p = x)) as [->|Hne].
  - by rewrite lookup_insert_eq.
  - by rewrite lookup_insert_ne.
Qed.

Lemma is_dir_insert_self (f : fs) (p : path) :
  is_dir (<[p := Dir]> f) p = true.
Proof.
  unfold is_dir, lookup_node. destruct (parts p); [done|].
  by rewrite lookup_insert_eq.
Qed.

Lemma adds_dirs_refl (f : fs) (l : list path) : adds_dirs f f l.
Proof. intros k. by left. Qed.

Lemma adds_dirs_insert (f : fs) (p : path) (l : list path) :
  f !! p = None -> p ∈ l -> adds_dirs f (<[p := Dir]> f) l.
Proof.
  intros Hp Hl k. destruct (decide (p = k)) as [<-|Hne].
  - right. by rewrite lookup_insert_eq.
  - left. by rewrite lookup_insert_ne.
Qed.

Lemma adds_dirs_trans (f f1 f2 : fs) (l l' : list path) :
  adds_dirs f f1 l -> adds_dirs f1 f2 l' -> l ⊆ l' -> adds_dirs f f2 l'.
Proof.
  intros H1 H2 Hl k.
  destruct (H1 k) as [E1 | (E1 & E1' & Hk)], (H2 k) as [E2 | (E2 & E2' & Hk')].
  - left. congruence.
  - right. rewrite <- E1. done.
  - right. rewrite E2. split_and!; [done..|]. by apply Hl.
  - congruence.
Qed.

Lemma adds_dirs_is_dir (f f1 : fs) (l : list path) (x : path) :
  adds_dirs f f1 l -> is_dir f x = true -> is_dir f1 x = true.
Proof.
  intros H. unfold is_dir, lookup_node. destruct (parts x); [done|].
  destruct (H x) as [-> | (-> & -> & _)]; done.
Qed.

Lemma fs_wf_insert (f : fs) (p : path) :
  fs_wf f -> is_dir f (parent p) = true -> fs_wf (<[p := Dir]> f).
Proof.
  intros Hwf Hp k n Hk Hparts.
  destruct (decide (p = k)) as [<-|Hne].
  - by apply is_dir_insert.
  - rewrite lookup_insert_ne in Hk by done.
    apply is_dir_insert. by eapply Hwf.
Qed.

Lemma is_dir_insert_fresh (f : fs) (p x : path) (n : node) :
  f !! p = None -> is_dir f x = true -> is_dir (<[p := n]> f) x = true.
Proof.
  intros Hp. unfold is_dir, lookup_node. destruct (parts x); [done|].
  destruct (decide (p = x)) as [->|Hne].
  - by rewrite Hp.
  - by rewrite lookup_insert_ne.
Qed.

Lemma fs_wf_insert_fresh (f : fs) (p : path) (n : node) :
  fs_wf f -> f !! p = None -> is_dir f (parent p) = true ->
  fs_wf (<[p := n]> f).
Proof.
  intros Hwf Hp Hd k n' Hk Hparts.
  destruct (decide (p = k)) as [<-|Hne].
  - by apply is_dir_insert_fresh.
  - rewrite lookup_insert_ne in Hk by done.
    apply is_dir_insert_fresh; [done|]. by eapply Hwf.
Qed.

Lemma fs_wf_empty : fs_wf ∅.
Proof. intros p n H. by rewrite lookup_empty in H. Qed.

Lemma os_mkdir_ok (p : path) (f f1 : fs) :
  os_mkdir p f = Ok f1 ->
  f1 = <[p := Dir]> f /\ f !! p = None /\ is_dir f (parent p) = true.
Proof.
  unfold os_mkdir.
  destruct (lookup_node f p) as [n|] eqn:E; [discriminate|].
  destruct (lookup_node f (parent p)) as [[|c]|] eqn:E'; try discriminate.
  intros [= <-]. split_and!; [done| |by apply is_dir_lookup].
  unfold lookup_node in E. by destruct (parts p).
Qed.

Lemma mkdir_here_ok (p : path) (exist_ok : bool) (f f1 : fs) :
  mkdir_here p exist_ok f = Ok f1 ->
  (f1 = <[p := Dir]> f /\ f !! p = None /\ is_dir f (parent p) = true) \/
  (f1 = f /\ exist_ok = true /\ is_dir f p = true).
Proof.
  unfold mkdir_here. destruct (os_mkdir p f) as [f'|e] eqn:E.
  - intros [= <-]. left. by apply os_mkdir_ok.
  - destruct (is_FileNotFoundError e); [discriminate|].
    destruct exist_ok, (is_dir f p); simpl; try discriminate.
    intros [= <-]. by right.
Qed.

Lemma parent_rev_cons (rt x : string) (up : list string) :
  parent (Path rt (rev (x :: up))) = Path rt (rev up).
Proof.
  change (rev (x :: up)) with (rev up ++ [x]).
  apply PurePathFacts.parent_snoc.
Qed.

Lemma self_in_ancestors (rt : string) (up : list string) :
  Path rt (rev up) ∈ ancestors_rev rt up.
Proof. destruct up; simpl; apply list_elem_of_here. Qed.

Lemma ancestors_cons_incl (rt x : string) (up : list string) :
  ancestors_rev rt up ⊆ ancestors_rev rt (x :: up).
Proof. intros a Ha. simpl. by apply list_elem_of_further. Qed.

(** What a successful [mkdir(parents=True)] leaves: a well-formed tree in
    which the path is a directory, and which differs from the old one by
    new directories on the way to the path only. *)
Lemma mkdir_parents_ok (rt : string) (up : list string) (exist_ok : bool)
    (f f1 : fs) :
  fs_wf f ->
  mkdir_parents rt up exist_ok f = Ok f1 ->
  fs_wf f1 /\ is_dir f1 (Path rt (rev up)) = true /\
  adds_dirs f f1 (ancestors_rev rt up).
Proof.
  revert exist_ok f1. induction up as [|x up IH]; intros exist_ok f1 Hwf.
  - simpl. unfold os_mkdir, lookup_node. simpl.
    destruct exist_ok; simpl; [|discriminate].
    intros [= <-]. split_and!; [done..|apply adds_dirs_refl].
  - cbn [mkdir_parents]. set (self := Path rt (rev (x :: up))).
    destruct (os_mkdir self f) as [f'|e] eqn:E.
    + apply os_mkdir_ok in E as (-> & Hn & Hp). intros [= <-].
      split_and!; [by apply fs_wf_insert | apply is_dir_insert_self |].
      apply adds_dirs_insert; [done | apply self_in_ancestors].
    + destruct (is_FileNotFoundError e).
      * destruct (mkdir_parents rt up true f) as [f0|e'] eqn:E'; [|discriminate].
        destruct (IH _ _ Hwf E') as (Hwf0 & Hd0 & Ha0).
        intros [(-> & Hn & Hp) | (-> & _ & Hd)]%mkdir_here_ok.
        -- split_and!; [by apply fs_wf_insert | apply is_dir_insert_self |].
           eapply adds_dirs_trans;
             [exact Ha0
             |apply adds_dirs_insert; [done | apply self_in_ancestors]
             |apply ancestors_cons_incl].
        -- split_and!; [done..|].
           eapply adds_dirs_trans;
             [exact Ha0 | apply adds_dirs_refl | apply ancestors_cons_incl].
      * destruct exist_ok; simpl; [|discriminate].
        destruct (is_dir f self) eqn:Hd; simpl; [|discriminate].
        intros [= <-]. split_and!; [done..|apply adds_dirs_refl].
Qed.

(** In a well-formed tree a directory sits below directories. *)
Lemma wf_ancestors_dirs (f : fs) (rt : string) (up : list string) :
  fs_wf f -> is_dir f (Path rt (rev up)) = true ->
  Forall (fun a => is_dir f a = true) (ancestors_rev rt up).
Proof.
  intros Hwf. induction up as [|x up IH]; intros Hd.
  - by constructor.
  - simpl. constructor; [exact Hd|]. apply IH.
    rewrite <- (parent_rev_cons rt x up).
    apply is_dir_lookup in Hd. unfold lookup_node in Hd.
    destruct (parts (Path rt (rev (x :: up)))) eqn:E.
    + simpl in E. by destruct (rev up).
    + eapply Hwf; [exact Hd|]. by rewrite E.
Qed.

(** [mkdir(parents=True, exist_ok=True)] succeeds unless a regular file is
    in the way. *)
Lemma mkdir_parents_succeeds (rt : string) (up : list string) (f : fs) :
  fs_wf f -> no_file_at f (ancestors_rev rt up) ->
  exists f1, mkdir_parents rt up true f = Ok f1.
Proof.
  intros Hwf. induction up as [|x up IH]; intros Hno.
  - simpl. unfold os_mkdir, lookup_node. simpl. eauto.
  - cbn [mkdir_parents]. set (self := Path rt (rev (x :: up))).
    unfold no_file_at in Hno. simpl in Hno. fold self in Hno.
    apply Forall_cons in Hno as [Hself Hup].
    unfold os_mkdir at 1.
    destruct (lookup_node f self) as [[|c]|] eqn:Es.
    + simpl. unfold is_dir. rewrite Es. simpl. eauto.
    + by destruct (Hself c).
    + assert (parent self = Path rt (rev up)) as Ep
        by apply parent_rev_cons.
      rewrite Ep.
      destruct (lookup_node f (Path rt (rev up))) as [[|c]|] eqn:Eu.
      * eauto.
      * exfalso. destruct up; simpl in Hup;
          apply Forall_cons in Hup as [Hu _]; by destruct (Hu c).
      * simpl. destruct (IH Hup) as [f0 E0]. rewrite E0.
        destruct (mkdir_parents_ok _ _ _ _ _ Hwf E0) as (Hwf0 & Hd0 & Ha0).
        unfold mkdir_here, os_mkdir. rewrite Ep.
        apply is_dir_lookup in Hd0. rewrite Hd0.
        destruct (lookup_node f0 self) as [[|c]|] eqn:Es0.
        -- simpl. unfold is_dir. rewrite Es0. simpl. eauto.
        -- exfalso. unfold lookup_node in Es, Es0.
           destruct (parts self); [done|].
           destruct (Ha0 self) as [E | (_ & E & _)]; congruence.
        -- eauto.
Qed.

End FileSystemFacts.

(** ** The validator and the normaliser *)

Section Normaliser.

Context {lib : GeoLibrary}.
Import GeoUtils.

Ltac run_monad :=
  unfold try_except, bind, ret, raise, pure_call, gpd_read_file,
    gdf_set_crs, gdf_to_file, path_mkdir in *;
  simpl in *.

Lemma is_wkt_run (text : string) (w : world) :
  is_wkt text w =
    (Ok (match loads text with Ok _ => true | Raise _ => false end), w).
Proof. unfold is_wkt. run_monad. by destruct (loads text). Qed.

(** The file branch of [to_openeo_wkt], call by call. *)
Lemma to_openeo_wkt_file_run (src : pathlike) (w : world) :
  read_as_file src = true ->
  to_openeo_wkt (Some src) w =
    (match read_file src (files w) with
     | Raise c => Raise (WKTError (Raised c))
     | Ok gdf =>
         match unary_union gdf with
         | Raise c => Raise (WKTError (Raised c))
         | Ok u =>
             match wkt u with
             | Raise c => Raise (WKTError (Raised c))
             | Ok t => Ok (Some t)
             end
         end
     end, log (CallReadFile src) w).
Proof.
  intros H. destruct src as [s|p]; simpl in H |- *.
  - unfold bind at 1. rewrite is_wkt_run.
    destruct (loads s); [discriminate|]. run_monad.
    destruct (read_file _ _) as [gdf|c]; [|reflexivity].
    destruct (unary_union gdf) as [u|c]; [|reflexivity].
    by destruct (wkt u).
  - run_monad.
    destruct (read_file _ _) as [gdf|c]; [|reflexivity].
    destruct (unary_union gdf) as [u|c]; [|reflexivity].
    by destruct (wkt u).
Qed.

(** C3. For every string, [is_wkt] returns [True] when [shapely] parses it
    and [False] when the parse raises, whatever the exception; it never
    raises itself, and it leaves the state as it found it.  (So
    [is_wkt("POINT (0 0)")] is true and [is_wkt("not a geometry")],
    [is_wkt("")] are false, as [shapely] accepts the first and rejects the
    other two.) *)
Theorem is_wkt_total (text : string) (w : world) :
  exists b : bool,
    is_wkt text w = (Ok b, w) /\
    (b = true <-> exists g, loads text = Ok g) /\
    (b = false <-> exists e, loads text = Raise e).
Proof.
  rewrite is_wkt_run. destruct (loads text) as [g|e] eqn:E.
  - exists true. split_and!; [done|split; eauto|split; [done|]].
    by intros [? ?].
  - exists false. split_and!; [done|split; [done|]|split; eauto].
    by intros [? ?].
Qed.

(** C4. On a string that [is_wkt] accepts, [to_openeo_wkt] returns that very
    string and makes no call: no file is read, the state is unchanged. *)
Theorem to_openeo_wkt_wkt_unchanged (s : string) (w : world) :
  fst (is_wkt s w) = Ok true ->
  to_openeo_wkt (Some (AsStr s)) w = (Ok (Some s), w).
Proof.
  rewrite is_wkt_run. simpl. intros H.
  unfold to_openeo_wkt, bind. rewrite is_wkt_run.
  by destruct (loads s).
Qed.

(** C1. [to_openeo_wkt(None)] is [None], at once.  A path object, and a
    string that is not WKT, is read as a vector dataset (a path object
    without any WKT test): exactly one call is made, [gpd.read_file] on the
    argument as given, and what is returned is the WKT text of the union
    of the dataset, one string. *)
Theorem to_openeo_wkt_cases (w : world) :
  to_openeo_wkt None w = (Ok None, w) /\
  forall src : pathlike,
    read_as_file src = true ->
    snd (to_openeo_wkt (Some src) w) = log (CallReadFile src) w /\
    forall r : option string,
      fst (to_openeo_wkt (Some src) w) = Ok r <->
      exists gdf u t,
        read_file src (files w) = Ok gdf /\ unary_union gdf = Ok u /\
        wkt u = Ok t /\ r = Some t.
Proof.
  split; [reflexivity|]. intros src H.
  rewrite (to_openeo_wkt_file_run src w H). simpl. split; [reflexivity|].
  intros r. destruct (read_file src (files w)) as [gdf|c] eqn:Er.
  - destruct (unary_union gdf) as [u|c] eqn:Eu.
    + destruct (wkt u) as [t|c] eqn:Et.
      * split; [intros [= <-]; exists gdf, u, t; by split_and!|].
        intros (? & ? & ? & [= <-] & ? & ? & ->). congruence.
      * split; [discriminate|].
        intros (? & ? & ? & [= <-] & ? & ? & _). congruence.
    + split; [discriminate|]. intros (? & ? & ? & [= <-] & ? & _). congruence.
  - split; [discriminate|]. by intros (? & ? & ? & ? & _).
Qed.

(** C2. Whatever [gpd.read_file], [unary_union] or [wkt] raises is caught
    and raised again as [WKTError] built from that exception, and nothing
    else is ever raised by [to_openeo_wkt]; so a path that cannot be read,
    such as one that does not exist, gives [WKTError]. *)
Theorem to_openeo_wkt_raises_only_WKTError (aoi : option pathlike) (w : world) :
  (forall e, fst (to_openeo_wkt aoi w) = Raise e ->
     exists src c,
       aoi = Some src /\ read_as_file src = true /\ e = WKTError (Raised c) /\
       (read_file src (files w) = Raise c \/
        exists gdf, read_file src (files w) = Ok gdf /\
          (unary_union gdf = Raise c \/
           exists u, unary_union gdf = Ok u /\ wkt u = Raise c))) /\
  (forall src c,
     aoi = Some src -> read_as_file src = true ->
     (read_file src (files w) = Raise c \/
      exists gdf, read_file src (files w) = Ok gdf /\
        (unary_union gdf = Raise c \/
         exists u, unary_union gdf = Ok u /\ wkt u = Raise c)) ->
     fst (to_openeo_wkt aoi w) = Raise (WKTError (Raised c))).
Proof.
  split.
  - intros e. destruct aoi as [src|]; [|discriminate].
    destruct (read_as_file src) eqn:H.
    + rewrite (to_openeo_wkt_file_run src w H). simpl.
      destruct (read_file src (files w)) as [gdf|c] eqn:Er.
      * destruct (unary_union gdf) as [u|c] eqn:Eu.
        -- destruct (wkt u) as [t|c] eqn:Et; [discriminate|].
           intros [= <-]. exists src, c. split_and!; [done..|].
           right. exists gdf. split; [done|]. right. by exists u.
        -- intros [= <-]. exists src, c. split_and!; [done..|].
           right. exists gdf. split; [done|]. by left.
      * intros [= <-]. exists src, c. split_and!; [done..|]. by left.
    + destruct src as [s|p]; [|discriminate]. simpl in H.
      unfold to_openeo_wkt, bind. rewrite is_wkt_run.
      by destruct (loads s).
  - intros src c -> H Hc.
    rewrite (to_openeo_wkt_file_run src w H). simpl.
    destruct Hc as [-> | (gdf & -> & [-> | (u & -> & ->)])]; reflexivity.
Qed.

End Normaliser.

(** ** The converter *)

Section Converter.

Context {lib : GeoLibrary}.
Import GeoUtils PurePathFacts FileSystemFacts.

Lemma label_crs_run (gdf : GeoDataFrame) (fc : option crs_spec) (w : world) :
  label_crs gdf fc w =
    (match labelled gdf fc with Ok d => Ok d | Raise e => Raise (Raised e) end,
     World (files w) (calls w ++ label_calls gdf fc)).
Proof.
  unfold label_crs, labelled, label_calls, gdf_set_crs, pure_call, ret, log.
  destruct w as [f cs]. simpl.
  destruct (crs gdf), fc; simpl; rewrite ?app_nil_r; try reflexivity.
  by destruct (set_crs gdf c).
Qed.

(** The whole call, collaborator by collaborator. *)
Lemma geojson_to_shapefile_run (gp : pathlike) (sp : option pathlike)
    (fc : option crs_spec) (w : world) :
  geojson_to_shapefile gp sp fc w =
    match output_path_of (to_path gp) sp with
    | Raise e => (Raise (Raised e), w)
    | Ok q =>
        let c1 := CallMkdir (parent q) true true in
        let c2 := CallReadFile (AsPath (to_path gp)) in
        match mkdir (parent q) true true (files w) with
        | Raise e => (Raise (Raised e), World (files w) (calls w ++ [c1]))
        | Ok f1 =>
            match read_file (AsPath (to_path gp)) f1 with
            | Raise e => (Raise (Raised e), World f1 (calls w ++ [c1; c2]))
            | Ok gdf =>
                let cs := calls w ++ [c1; c2] ++ label_calls gdf fc in
                match labelled gdf fc with
                | Raise e => (Raise (Raised e), World f1 cs)
                | Ok d =>
                    let r := to_file d q "ESRI Shapefile" f1 in
                    (match r.1 with
                     | None => Ok q
                     | Some e => Raise (Raised e)
                     end, World r.2 (cs ++ [CallToFile d q "ESRI Shapefile"]))
                end
            end
        end
    end.
Proof.
  unfold geojson_to_shapefile. unfold bind at 1. unfold pure_call at 1.
  destruct (output_path_of (to_path gp) sp) as [q|e]; [|reflexivity].
  unfold bind at 1. unfold path_mkdir at 1. unfold log. cbv zeta.
  cbn [files calls].
  destruct (mkdir (parent q) true true (files w)) as [f1|e]; [|reflexivity].
  unfold bind at 1. unfold gpd_read_file at 1. unfold log. cbn [files calls].
  destruct (read_file (AsPath (to_path gp)) f1) as [gdf|e];
    [|by rewrite <- app_assoc].
  unfold bind at 1. rewrite label_crs_run. cbn [files calls].
  destruct (labelled gdf fc) as [d|e];
    [|by rewrite <- !app_assoc].
  unfold bind, gdf_to_file, ret, log. cbn [files calls].
  destruct (to_file d q "ESRI Shapefile" f1) as [[e|] f2]; cbn [fst snd];
    by rewrite <- !app_assoc.
Qed.

(** When the call returns, and what. *)
Lemma geojson_to_shapefile_returns (gp : pathlike) (sp : option pathlike)
    (fc : option crs_spec) (w : world) (q : path) :
  fst (geojson_to_shapefile gp sp fc w) = Ok q <->
  output_path_of (to_path gp) sp = Ok q /\
  exists f1 gdf d f2,
    mkdir (parent q) true true (files w) = Ok f1 /\
    read_file (AsPath (to_path gp)) f1 = Ok gdf /\
    labelled gdf fc = Ok d /\
    to_file d q "ESRI Shapefile" f1 = (None, f2).
Proof.
  rewrite geojson_to_shapefile_run.
  destruct (output_path_of (to_path gp) sp) as [q0|e] eqn:Eo; cbv zeta.
  2:{ split; [discriminate | by intros [? _]]. }
  destruct (mkdir (parent q0) true true (files w)) as [f1|e] eqn:Em.
  2:{ split; [discriminate|]. intros [[= ->] (? & ? & ? & ? & ? & _)]. congruence. }
  destruct (read_file (AsPath (to_path gp)) f1) as [gdf|e] eqn:Er.
  2:{ split; [discriminate|]. intros [[= ->] (? & ? & ? & ? & ? & ? & _)]. congruence. }
  destruct (labelled gdf fc) as [d|e] eqn:El.
  2:{ split; [discriminate|].
      intros [[= ->] (? & ? & ? & ? & ? & ? & ? & _)]. congruence. }
  destruct (to_file d q0 "ESRI Shapefile" f1) as [[e|] f2] eqn:Et; cbn [fst].
  - split; [discriminate|].
    intros [[= ->] (? & ? & ? & ? & ? & ? & ? & ?)]. congruence.
  - split.
    + intros [= ->]. split; [done|]. by exists f1, gdf, d, f2.
    + by intros [[= ->] _].
Qed.

(** *** The destination path *)

Lemma path_eta (p : path) : Path (root p) (parts p) = p.
Proof. by destruct p. Qed.

Lemma lower_shp_nonempty (s : string) : PyStr.lower s = ".shp" -> s <> "".
Proof. by intros H ->. Qed.

(** C5. The destination is found by four cases.  Without an output
    argument it is the input path with its suffix replaced by [.shp]: same
    parent, same stem (this is [with_suffix], which wants a final
    component to work on and raises [ValueError] on a path without one).
    An output without suffix is a directory, and the destination is the
    file [<input stem>.shp] in it.  An output with another suffix than
    [.shp] gets its suffix replaced.  An output whose suffix is [.shp] in
    any letter case is the destination as it is.  The call returns that
    path, and does so exactly when the four collaborator calls after the
    resolution succeed. *)
Theorem output_path_cases (gp : pathlike) (sp : option pathlike) :
  pathlike_wf gp ->
  match sp with
  | None =>
      (name (to_path gp) <> "" <->
         exists q, output_path_of (to_path gp) None = Ok q) /\
      forall q, output_path_of (to_path gp) None = Ok q ->
        parent q = parent (to_path gp) /\ stem q = stem (to_path gp) /\
        suffix q = ".shp"
  | Some out =>
      exists q, output_path_of (to_path gp) sp = Ok q /\
        (suffix (to_path out) = "" ->
           parent q = to_path out /\
           name q = stem (to_path gp) +:+ ".shp") /\
        (suffix (to_path out) <> "" ->
         PyStr.lower (suffix (to_path out)) <> ".shp" ->
           parent q = parent (to_path out) /\
           stem q = stem (to_path out) /\ suffix q = ".shp") /\
        (PyStr.lower (suffix (to_path out)) = ".shp" -> q = to_path out)
  end /\
  forall fc w q,
    fst (geojson_to_shapefile gp sp fc w) = Ok q <->
    output_path_of (to_path gp) sp = Ok q /\
    exists f1 gdf d f2,
      mkdir (parent q) true true (files w) = Ok f1 /\
      read_file (AsPath (to_path gp)) f1 = Ok gdf /\
      labelled gdf fc = Ok d /\
      to_file d q "ESRI Shapefile" f1 = (None, f2).
Proof.
  intros Hwf%to_path_wf. split; [|apply geojson_to_shapefile_returns].
  destruct sp as [out|].
  - unfold output_path_of. set (oc := to_path out).
    case_bool_decide as Hdir.
    + apply (proj1 (PyStrFacts.lower_empty _)) in Hdir.
      rewrite (joinpath_stem oc _ Hwf). eexists. split; [reflexivity|].
      split_and!.
      * intros _. by rewrite parent_snoc, name_snoc, path_eta.
      * done.
      * intros H%lower_shp_nonempty. done.
    + assert (suffix oc <> "") as Hs
        by (intros E; apply Hdir; by rewrite E).
      case_bool_decide as Hshp; simpl.
      * exists oc. split_and!; done.
      * rewrite with_suffix_shp.
        rewrite bool_decide_false by by apply suffix_nonempty_name.
        eexists. split; [reflexivity|]. split_and!; [done| |done].
        intros _ _. rewrite parent_snoc. split; [reflexivity|].
        apply shp_name; [apply name_snoc|].
        by apply stem_nonempty, suffix_nonempty_name.
  - unfold output_path_of. split.
    + rewrite with_suffix_shp. case_bool_decide as Hn.
      * split; [done | by intros [? ?]].
      * split; [eauto | done].
    + intros q Hq. by apply with_suffix_shp_ok in Hq as (_ & ? & ? & ?).
Qed.

(** The suffix of the destination, for an input path that has a final
    component. *)
Lemma output_path_suffix (ip : path) (sp : option pathlike) :
  wf_path ip -> name ip <> "" ->
  exists q, output_path_of ip sp = Ok q /\ PyStr.lower (suffix q) = ".shp".
Proof.
  intros Hwf Hn. destruct sp as [out|]; unfold output_path_of.
  - set (oc := to_path out). case_bool_decide as Hdir.
    + rewrite (joinpath_stem oc _ Hwf). eexists. split; [reflexivity|].
      destruct (shp_name (Path (root oc) (parts oc ++ [stem ip +:+ ".shp"]))
                  (stem ip)) as [_ ->];
        [apply name_snoc | by apply stem_nonempty | reflexivity].
    + case_bool_decide as Hshp; simpl.
      * by exists oc.
      * assert (name oc <> "") as Hoc.
        { apply suffix_nonempty_name. intros E. apply Hdir. by rewrite E. }
        rewrite with_suffix_shp, bool_decide_false by done.
        eexists. split; [reflexivity|].
        destruct (shp_name (Path (root oc) (List.removelast (parts oc) ++ [stem oc +:+ ".shp"]))
                    (stem oc)) as [_ ->];
          [apply name_snoc | by apply stem_nonempty | reflexivity].
  - rewrite with_suffix_shp, bool_decide_false by done.
    eexists. split; [reflexivity|].
    destruct (shp_name (Path (root ip) (List.removelast (parts ip) ++ [stem ip +:+ ".shp"]))
                (stem ip)) as [_ ->];
      [apply name_snoc | by apply stem_nonempty | reflexivity].
Qed.

(** C9, as the code has it.  When the input path has a final component,
    a destination is found for every output argument, and the path the call
    returns has the suffix [.shp] up to letter case.  For every input, an
    output argument whose suffix is [.shp] in some letter case is returned
    as it was given, suffix included. *)
Theorem returned_suffix_is_shp (gp : pathlike) (sp : option pathlike) :
  (pathlike_wf gp -> name (to_path gp) <> "" ->
     (exists q, output_path_of (to_path gp) sp = Ok q) /\
     forall fc w q,
       fst (geojson_to_shapefile gp sp fc w) = Ok q ->
       PyStr.lower (suffix q) = ".shp") /\
  (forall out fc w q,
     sp = Some out -> PyStr.lower (suffix (to_path out)) = ".shp" ->
     fst (geojson_to_shapefile gp sp fc w) = Ok q ->
     q = to_path out /\ suffix q = suffix (to_path out)).
Proof.
  split.
  - intros Hwf%to_path_wf Hn.
    destruct (output_path_suffix _ sp Hwf Hn) as (q & Hq & Hs).
    split; [by exists q|].
    intros fc w q' [Hq' _]%geojson_to_shapefile_returns. congruence.
  - intros out fc w q -> Hshp [Hq _]%geojson_to_shapefile_returns.
    unfold output_path_of in Hq. rewrite Hshp in Hq. simpl in Hq.
    by injection Hq as <-.
Qed.

(** *** Directory creation and the write *)




(** *** The reference system *)

Lemma label_calls_cases (gdf : GeoDataFrame) (fc : option crs_spec) :
  match crs gdf, fc with
  | None, Some spec =>
      label_calls gdf fc = [CallSetCrs gdf spec] /\
      labelled gdf fc = set_crs gdf spec
  | _, _ => label_calls gdf fc = [] /\ labelled gdf fc = Ok gdf
  end.
Proof. unfold label_calls, labelled. by destruct (crs gdf), fc. Qed.

(** C7. [set_crs] is called exactly when the dataset that was read has no
    reference system and [force_crs] is given, with that dataset and that
    specifier; the dataset handed to [to_file] is then what [set_crs]
    returned, and in every other case it is the dataset as read.
    [to_crs], the reprojection, is never called. *)
Theorem crs_assigned_only_when_missing (gp : pathlike)
    (sp : option pathlike) (fc : option crs_spec) (w : world) :
  exists l : list call,
    calls (snd (geojson_to_shapefile gp sp fc w)) = calls w ++ l /\
    (forall g s, CallToCrs g s ∉ l) /\
    (forall g s, CallSetCrs g s ∈ l ->
       crs g = None /\ fc = Some s /\
       exists q f1,
         output_path_of (to_path gp) sp = Ok q /\
         mkdir (parent q) true true (files w) = Ok f1 /\
         read_file (AsPath (to_path gp)) f1 = Ok g) /\
    (forall q f1 g,
       output_path_of (to_path gp) sp = Ok q ->
       mkdir (parent q) true true (files w) = Ok f1 ->
       read_file (AsPath (to_path gp)) f1 = Ok g ->
       match crs g, fc with
       | None, Some s =>
           CallSetCrs g s ∈ l /\
           forall d p drv, CallToFile d p drv ∈ l -> set_crs g s = Ok d
       | _, _ =>
           (forall g' s', CallSetCrs g' s' ∉ l) /\
           forall d p drv, CallToFile d p drv ∈ l -> d = g
       end).
Proof.
  rewrite geojson_to_shapefile_run.
  destruct (output_path_of (to_path gp) sp) as [q|e] eqn:Eo.
  2:{ exists []. rewrite app_nil_r. split_and!; [done|set_solver..|done]. }
  cbv zeta.
  destruct (mkdir (parent q) true true (files w)) as [f1|e] eqn:Em.
  2:{ eexists. split; [reflexivity|]. split_and!; [set_solver..|].
      intros q' f' g' Ho Hm Hr. congruence. }
  destruct (read_file (AsPath (to_path gp)) f1) as [gdf|e] eqn:Er.
  2:{ eexists. split; [reflexivity|]. split_and!; [set_solver..|].
      intros q' f' g' Ho Hm Hr. congruence. }
  pose proof (label_calls_cases gdf fc) as Hl.
  destruct (labelled gdf fc) as [d|e] eqn:El; cbn [snd calls];
    (eexists; split; [by rewrite <- ?app_assoc|]).
  - destruct (crs gdf) as [c|] eqn:Ec; [|destruct fc as [s|]];
      destruct Hl as [-> Hd]; simplify_eq.
    + split_and!; [set_solver|set_solver|].
      intros q' f' g' Ho Hm Hr. assert (g' = gdf) as -> by congruence. rewrite Ec.
      split; [set_solver|]. intros d' p drv. set_solver.
    + split_and!; [set_solver| |].
      * intros g s' Hin. assert (g = gdf /\ s' = s) as [-> ->] by set_solver.
        split_and!; [done..|]. by exists q, f1.
      * intros q' f' g' Ho Hm Hr. assert (g' = gdf) as -> by congruence. rewrite Ec.
        split; [set_solver|]. intros d' p drv Hin.
        assert (d' = d) as -> by set_solver. done.
    + split_and!; [set_solver|set_solver|].
      intros q' f' g' Ho Hm Hr. assert (g' = gdf) as -> by congruence. rewrite Ec.
      split; [set_solver|]. intros d' p drv. set_solver.
  - destruct (crs gdf) as [c|] eqn:Ec; [|destruct fc as [s|]];
      destruct Hl as [-> Hd]; simplify_eq.
    split_and!; [set_solver| |].
    + intros g s' Hin. assert (g = gdf /\ s' = s) as [-> ->] by set_solver.
      split_and!; [done..|]. by exists q, f1.
    + intros q' f' g' Ho Hm Hr. assert (g' = gdf) as -> by congruence. rewrite Ec.
      split; [set_solver|]. intros d' p drv. set_solver.
Qed.

(** *** Exceptions *)

(** The step that fails, and with what. *)
Lemma geojson_to_shapefile_raises (gp : pathlike) (sp : option pathlike)
    (fc : option crs_spec) (w : world) (e : error) :
  fst (geojson_to_shapefile gp sp fc w) = Raise e <->
  exists c : pyexn,
    e = Raised c /\
    (output_path_of (to_path gp) sp = Raise c \/
     exists q,
       output_path_of (to_path gp) sp = Ok q /\
       (mkdir (parent q) true true (files w) = Raise c \/
        exists f1,
          mkdir (parent q) true true (files w) = Ok f1 /\
          (read_file (AsPath (to_path gp)) f1 = Raise c \/
           exists gdf,
             read_file (AsPath (to_path gp)) f1 = Ok gdf /\
             (labelled gdf fc = Raise c \/
              exists d,
                labelled gdf fc = Ok d /\
                fst (to_file d q "ESRI Shapefile" f1) = Some c)))).
Proof.
  rewrite geojson_to_shapefile_run.
  destruct (output_path_of (to_path gp) sp) as [q|e0] eqn:Eo; cbv zeta.
  2:{ cbn [fst]. split.
      - intros [= <-]. exists e0. split; [done|by left].
      - intros (c & -> & [[= ->] | (? & [=] & _)]). done. }
  destruct (mkdir (parent q) true true (files w)) as [f1|e0] eqn:Em.
  2:{ cbn [fst]. split.
      - intros [= <-]. exists e0. split; [done|]. right. exists q.
        split; [done|by left].
      - intros (c & -> & [[=] | (? & [= <-] & [? | (? & ? & _)])]);
          congruence. }
  destruct (read_file (AsPath (to_path gp)) f1) as [gdf|e0] eqn:Er.
  2:{ cbn [fst]. split.
      - intros [= <-]. exists e0. split; [done|]. right. exists q.
        split; [done|]. right. exists f1. split; [done|by left].
      - intros (c & -> & [[=] | (? & [= <-] & [? | (? & ? & [? | (? & ? & _)])])]);
          congruence. }
  destruct (labelled gdf fc) as [d|e0] eqn:El.
  2:{ cbn [fst]. split.
      - intros [= <-]. exists e0. split; [done|]. right. exists q.
        split; [done|]. right. exists f1. split; [done|]. right.
        exists gdf. split; [done|by left].
      - intros (c & -> & [[=] | (? & [= <-] & [? | (? & ? & [? | (? & ? & [? | (? & ? & _)])])])]);
          congruence. }
  cbn [fst].
  destruct (to_file d q "ESRI Shapefile" f1) as [[e0|] f2] eqn:Et; cbn [fst].
  - split.
    + intros [= <-]. exists e0. split; [done|]. right. exists q.
      split; [done|]. right. exists f1. split; [done|]. right.
      exists gdf. split; [done|]. right. exists d. by rewrite Et.
    + intros (c & -> & [[=] | (q' & [= <-] & [? | (f' & ? & [? | (g' & ? & [? | (d' & ? & Hc)])])])]);
        try congruence.
      assert (f' = f1) as -> by congruence.
      assert (g' = gdf) as -> by congruence.
      assert (d' = d) as -> by congruence.
      rewrite Et in Hc. simpl in Hc. congruence.
  - split; [discriminate|].
    intros (c & -> & [[=] | (q' & [= <-] & [? | (f' & ? & [? | (g' & ? & [? | (d' & ? & Hc)])])])]);
      try congruence.
    assert (f' = f1) as -> by congruence.
    assert (g' = gdf) as -> by congruence.
    assert (d' = d) as -> by congruence.
    rewrite Et in Hc. discriminate.
Qed.

(** C8. Nothing is wrapped.  A failure of [read_file], of [set_crs] on the
    override, or of [to_file] ends the call with that very exception, and
    so does one of [mkdir] or of the path computation; whatever the call
    raises is such an exception, and it is never [WKTError]. *)
Theorem converter_raises_unwrapped (gp : pathlike) (sp : option pathlike)
    (fc : option crs_spec) (w : world) :
  (forall q f1 c,
     output_path_of (to_path gp) sp = Ok q ->
     mkdir (parent q) true true (files w) = Ok f1 ->
     (read_file (AsPath (to_path gp)) f1 = Raise c \/
      exists gdf,
        read_file (AsPath (to_path gp)) f1 = Ok gdf /\
        (labelled gdf fc = Raise c \/
         exists d, labelled gdf fc = Ok d /\
           fst (to_file d q "ESRI Shapefile" f1) = Some c)) ->
     fst (geojson_to_shapefile gp sp fc w) = Raise (Raised c)) /\
  (forall e,
     fst (geojson_to_shapefile gp sp fc w) = Raise e ->
     exists c, e = Raised c) /\
  (forall cause,
     fst (geojson_to_shapefile gp sp fc w) <> Raise (WKTError cause)).
Proof.
  split_and!.
  - intros q f1 c Ho Hm Hc. apply geojson_to_shapefile_raises.
    exists c. split; [done|]. right. exists q. split; [done|]. right.
    exists f1. by split.
  - intros e (c & -> & _)%geojson_to_shapefile_raises. by exists c.
  - intros cause (c & [=] & _)%geojson_to_shapefile_raises.
Qed.

End Converter.

(** * Runs against the small collaborator *)

Section Runs.

Import GeoUtils Demo FileSystemFacts.

Lemma demo_disk_wf : fs_wf demo_disk.
Proof.
  unfold demo_disk.
  apply fs_wf_insert_fresh; [apply fs_wf_insert_fresh| |];
    [apply fs_wf_empty | | | |]; by vm_compute.
Qed.

(** A regular file in the way stops [mkdir], and nothing is created. *)
Example mkdir_blocked_by_file :
  mkdir (of_str "blocker/sub") true true demo_disk =
    Raise (NotADirectoryError "blocker/sub").
Proof. reflexivity. Qed.

Lemma is_wkt_total_witness :
  is_wkt "POINT (0 0)" demo_world = (Ok true, demo_world) /\
  is_wkt "not a geometry" demo_world = (Ok false, demo_world) /\
  is_wkt "" demo_world = (Ok false, demo_world).
Proof.
  split_and!.
  - destruct (is_wkt_total "POINT (0 0)" demo_world) as (b & -> & [_ Ht] & _).
    by rewrite Ht by (eexists; reflexivity).
  - destruct (is_wkt_total "not a geometry" demo_world) as (b & -> & _ & [_ Hf]).
    by rewrite Hf by (eexists; reflexivity).
  - destruct (is_wkt_total "" demo_world) as (b & -> & _ & [_ Hf]).
    by rewrite Hf by (eexists; reflexivity).
Defined.

Lemma to_openeo_wkt_wkt_unchanged_witness :
  to_openeo_wkt (Some (AsStr "POINT (1 2)")) demo_world =
    (Ok (Some "POINT (1 2)"), demo_world).
Proof. apply to_openeo_wkt_wkt_unchanged. reflexivity. Defined.

Lemma to_openeo_wkt_cases_witness :
  fst (to_openeo_wkt (Some (AsStr "data.geojson")) demo_world) =
    Ok (Some "MULTIPOINT (1 2, 3 4)") /\
  calls (snd (to_openeo_wkt (Some (AsPath (of_str "POINT (1 2)"))) demo_world)) =
    [CallReadFile (AsPath (of_str "POINT (1 2)"))].
Proof.
  destruct (to_openeo_wkt_cases demo_world) as [_ H]. split.
  - destruct (H (AsStr "data.geojson") eq_refl) as [_ Hr].
    apply Hr. eexists _, _, _. split_and!; reflexivity.
  - destruct (H (AsPath (of_str "POINT (1 2)")) eq_refl) as [-> _].
    reflexivity.
Defined.

Lemma to_openeo_wkt_raises_only_WKTError_witness :
  fst (to_openeo_wkt (Some (AsStr "/nonexistent/file.geojson")) demo_world) =
    Raise (WKTError (Raised
      (LibraryError "DataSourceError" "No such file or directory"))).
Proof.
  destruct (to_openeo_wkt_raises_only_WKTError
              (Some (AsStr "/nonexistent/file.geojson")) demo_world)
    as [_ H].
  apply (H (AsStr "/nonexistent/file.geojson")); [reflexivity..|].
  left. reflexivity.
Defined.

Lemma output_path_cases_witness :
  fst (geojson_to_shapefile (AsStr "data.geojson") (Some (AsStr "outdir/"))
         None demo_world) = Ok (of_str "outdir/data.shp") /\
  exists q, output_path_of (of_str "data.geojson") None = Ok q /\
            parent q = parent (of_str "data.geojson") /\ suffix q = ".shp".
Proof.
  split.
  - destruct (output_path_cases (AsStr "data.geojson")
                (Some (AsStr "outdir/")) I) as [_ Hret].
    apply Hret. split; [reflexivity|].
    eexists _, _, _, _. split_and!; reflexivity.
  - destruct (output_path_cases (AsStr "data.geojson") None I)
      as [[Hex Hq] _].
    destruct (proj1 Hex) as [q E]; [discriminate|].
    exists q. split; [exact E|]. by destruct (Hq q E) as (? & _ & ?).
Defined.

Lemma returned_suffix_is_shp_witness :
  PyStr.lower (suffix (of_str "outdir/data.shp")) = ".shp" /\
  suffix (of_str "x.SHP") = ".SHP".
Proof.
  split.
  - destruct (returned_suffix_is_shp (AsStr "data.geojson")
                (Some (AsStr "outdir/"))) as [H _].
    destruct H as [_ H]; [exact I | discriminate |].
    apply (H None demo_world). reflexivity.
  - destruct (returned_suffix_is_shp (AsStr "data.geojson")
                (Some (AsStr "x.SHP"))) as [_ H].
    destruct (H (AsStr "x.SHP") None demo_world (of_str "x.SHP"))
      as [_ ->]; reflexivity.
Defined.

(** C9, as the spec has it, fails: an input path without a final component
    (here the working directory, which holds a layer) has the empty stem,
    and with an output directory the call returns [out/.shp], a path
    without suffix. *)
Lemma returned_suffix_not_shp :
  ~ (forall q,
       fst (geojson_to_shapefile (AsStr ".") (Some (AsStr "out")) None
              layer_world) = Ok q ->
       PyStr.lower (suffix q) = ".shp").
Proof.
  intros H. specialize (H (Path "" ["out"; ".shp"]) eq_refl).
  discriminate H.
Qed.



Lemma crs_assigned_only_when_missing_witness :
  exists l,
    calls (snd (geojson_to_shapefile (AsStr "data.geojson")
                  (Some (AsStr "a/b/out.geojson")) (Some (CrsCode 4326))
                  demo_world)) = l /\
    CallSetCrs (Frame ["1 2"; "3 4"] None) (CrsCode 4326) ∈ l /\
    forall d p drv, CallToFile d p drv ∈ l ->
                    d = Frame ["1 2"; "3 4"] (Some 4326).
Proof.
  destruct (crs_assigned_only_when_missing (AsStr "data.geojson")
              (Some (AsStr "a/b/out.geojson")) (Some (CrsCode 4326))
              demo_world) as (l & Hl & _ & _ & Hall).
  exists l. split; [exact Hl|].
  assert (exists f1 g,
            mkdir (parent (of_str "a/b/out.shp")) true true
              (files demo_world) = Ok f1 /\
            read_file (AsPath (to_path (AsStr "data.geojson"))) f1 = Ok g /\
            g = Frame ["1 2"; "3 4"] None) as (f1 & g & Em & Er & ->)
    by (eexists _, _; split_and!; reflexivity).
  destruct (Hall (of_str "a/b/out.shp") f1 _ eq_refl Em Er) as [Hset Hfile].
  split; [exact Hset|].
  intros d p drv Hin. specialize (Hfile d p drv Hin).
  by injection Hfile as <-.
Defined.

Lemma converter_raises_unwrapped_witness :
  fst (geojson_to_shapefile (AsStr "data.geojson") None
         (Some (CrsName "EPSG:bogus")) demo_world) =
    Raise (Raised (LibraryError "CRSError" "Invalid projection")).
Proof.
  eapply (proj1 (converter_raises_unwrapped (AsStr "data.geojson") None
                   (Some (CrsName "EPSG:bogus")) demo_world));
    [reflexivity | reflexivity |].
  right. eexists. split; [reflexivity|]. left. reflexivity.
Defined.

End Runs.

(** * Further properties of the converter and the normaliser *)

(** ** Names without an extension *)

Module DotlessFacts.
Import PyStr PyStrFacts PurePathFacts.

Lemma rfind_from_absent (c : ascii) (s : string) (i : Z) :
  contains c s = false -> rfind_from c s i = -1.
Proof.
  revert i. induction s as [|a s IH]; intros i; simpl; [done|].
  destruct (decide (a = c)); [discriminate|].
  intros H. by rewrite (IH _ H).
Qed.

(** A name whose only dot, if any, is its first character has no suffix. *)
Lemma has_suffix_dotless (nm : string) :
  contains dot (drop 1 nm) = false -> has_suffix nm = false.
Proof.
  destruct nm as [|a s]; [reflexivity|]. simpl. intros H.
  unfold has_suffix, rfind. simpl. rewrite (rfind_from_absent _ _ _ H). simpl.
  by destruct (decide (a = dot)).
Qed.

End DotlessFacts.

(** ** Directory creation, again *)

Module MkdirFacts.
Import FileSystemFacts.

Lemma os_mkdir_FileNotFound (p : path) (f : fs) (e : pyexn) :
  os_mkdir p f = Raise e -> is_FileNotFoundError e = true ->
  lookup_node f (parent p) = None.
Proof.
  unfold os_mkdir. destruct (lookup_node f p); [by intros [= <-]|].
  destruct (lookup_node f (parent p)) as [[|c]|]; [done| |done].
  by intros [= <-].
Qed.

Lemma mkdir_parents_existing (rt : string) (up : list string) (f : fs) :
  is_dir f (Path rt (rev up)) = true -> mkdir_parents rt up true f = Ok f.
Proof.
  intros Hd. pose proof Hd as Hl. apply is_dir_lookup in Hl.
  destruct up; cbn [mkdir_parents]; unfold os_mkdir; rewrite Hl;
    cbn [is_FileNotFoundError negb orb]; by rewrite Hd.
Qed.

Lemma mkdir_existing (p : path) (f : fs) :
  is_dir f p = true -> mkdir p true true f = Ok f.
Proof.
  intros Hd. unfold mkdir. apply mkdir_parents_existing.
  rewrite rev_involutive. by destruct p.
Qed.

(** With [parents=True] a missing directory is never the reason to fail. *)
Lemma mkdir_parents_not_FileNotFound (rt : string) (up : list string)
    (exist_ok : bool) (f : fs) (e : pyexn) :
  fs_wf f -> mkdir_parents rt up exist_ok f = Raise e ->
  is_FileNotFoundError e = false.
Proof.
  intros Hwf. revert exist_ok e. induction up as [|x up IH]; intros exist_ok e.
  - simpl. unfold os_mkdir, lookup_node. simpl.
    destruct exist_ok; simpl; [discriminate|]. by intros [= <-].
  - cbn [mkdir_parents]. set (self := Path rt (rev (x :: up))).
    destruct (os_mkdir self f) as [f'|e0] eqn:E; [discriminate|].
    destruct (is_FileNotFoundError e0) eqn:E0.
    + destruct (mkdir_parents rt up true f) as [f0|e'] eqn:E'.
      * destruct (mkdir_parents_ok _ _ _ _ _ Hwf E') as (_ & Hd0 & _).
        unfold mkdir_here.
        destruct (os_mkdir self f0) as [f1|e1] eqn:E1; [discriminate|].
        destruct (is_FileNotFoundError e1) eqn:E1'.
        -- apply (os_mkdir_FileNotFound _ _ _ E1) in E1'.
           unfold self in E1'. rewrite parent_rev_cons in E1'.
           apply is_dir_lookup in Hd0. congruence.
        -- destruct (negb exist_ok || negb (is_dir f0 self)); [|discriminate].
           by intros [= <-].
      * intros [= <-]. by eapply IH.
    + destruct (negb exist_ok || negb (is_dir f self)); [|discriminate].
      by intros [= <-].
Qed.

(** A successful [mkdir] means that no regular file was in the way. *)
Lemma mkdir_ok_no_file (p : path) (f f1 : fs) :
  fs_wf f -> mkdir p true true f = Ok f1 ->
  no_file_at f (self_and_parents p).
Proof.
  intros Hwf Hm. unfold mkdir, self_and_parents in *.
  destruct (mkdir_parents_ok _ _ _ _ _ Hwf Hm) as (Hwf1 & Hd & Ha).
  pose proof (wf_ancestors_dirs _ _ _ Hwf1 Hd) as Hall.
  unfold no_file_at. rewrite Forall_forall in Hall |- *.
  intros a Hin c Hc. specialize (Hall a Hin).
  apply is_dir_lookup in Hall. unfold lookup_node in Hall, Hc.
  destruct (parts a); [done|].
  destruct (Ha a) as [E | (E & _)]; congruence.
Qed.

End MkdirFacts.

(** ** The converter, further *)

Section ConverterFurther.

Context {lib : GeoLibrary}.
Import GeoUtils PyStrFacts PurePathFacts FileSystemFacts DotlessFacts MkdirFacts.

(** The final component of every destination is some text followed by
    [.shp] in some letter case. *)
Lemma output_path_name_shp (ip : path) (sp : option pathlike) (q : path) :
  wf_path ip -> output_path_of ip sp = Ok q ->
  exists s t, name q = s +:+ t /\ PyStr.lower t = ".shp".
Proof.
  intros Hwf. destruct sp as [out|]; unfold output_path_of.
  - set (oc := to_path out). case_bool_decide as Hdir.
    + rewrite (joinpath_stem oc _ Hwf). intros [= <-].
      exists (stem ip), ".shp". by rewrite name_snoc.
    + case_bool_decide as Hshp; simpl.
      * intros [= <-]. exists (stem oc), (suffix oc).
        split; [apply name_split | done].
      * rewrite with_suffix_shp. case_bool_decide; [discriminate|].
        intros [= <-]. exists (stem oc), ".shp". by rewrite name_snoc.
  - rewrite with_suffix_shp. case_bool_decide; [discriminate|].
    intros [= <-]. exists (stem ip), ".shp". by rewrite name_snoc.
Qed.

(** X1. Whatever the arguments, the file name of the path the call returns
    ends in [.shp], in some letter case; this holds also where the name is
    [.shp] alone and so has no suffix for [pathlib]. *)
Theorem returned_name_ends_in_shp (gp : pathlike) (sp : option pathlike)
    (fc : option crs_spec) (w : world) (q : path) :
  pathlike_wf gp ->
  fst (geojson_to_shapefile gp sp fc w) = Ok q ->
  exists s t, name q = s +:+ t /\ PyStr.lower t = ".shp".
Proof.
  intros Hwf%to_path_wf [Hq _]%geojson_to_shapefile_returns.
  by eapply output_path_name_shp.
Qed.

(** X2. Without an output argument, an input path whose suffix is [.shp]
    is its own destination: the call writes onto the file it read, and
    returns the input path. *)
Theorem shp_input_is_overwritten (gp : pathlike) (fc : option crs_spec)
    (w : world) :
  suffix (to_path gp) = ".shp" ->
  output_path_of (to_path gp) None = Ok (to_path gp) /\
  forall q, fst (geojson_to_shapefile gp None fc w) = Ok q ->
    q = to_path gp /\
    exists d, CallToFile d (to_path gp) "ESRI Shapefile"
                ∈ calls (snd (geojson_to_shapefile gp None fc w)).
Proof.
  intros Hs.
  assert (output_path_of (to_path gp) None = Ok (to_path gp)) as Ho.
  { unfold output_path_of. rewrite with_suffix_shp.
    assert (name (to_path gp) <> "") as Hn
      by (apply suffix_nonempty_name; by rewrite Hs).
    rewrite bool_decide_false by done.
    rewrite <- Hs, <- name_split, <- parts_name by done.
    by rewrite path_eta. }
  split; [exact Ho|]. intros q Hq.
  pose proof Hq as [Hq' (f1 & gdf & d & f2 & Hm & Hr & Hl & Ht)]%geojson_to_shapefile_returns.
  assert (q = to_path gp) as -> by congruence. split; [reflexivity|].
  exists d. rewrite geojson_to_shapefile_run, Ho. cbv zeta.
  rewrite Hm, Hr, Hl. cbn [snd calls]. set_solver.
Qed.

(** X3. A returned destination is stable: for an input path with a final
    component, the path the resolution gives, passed back as the output
    argument, is the destination again, for any input. *)
Theorem destination_is_stable (ip ip' : path) (sp : option pathlike)
    (q : path) :
  wf_path ip -> name ip <> "" ->
  output_path_of ip sp = Ok q ->
  output_path_of ip' (Some (AsPath q)) = Ok q.
Proof.
  intros Hwf Hn Hq.
  destruct (output_path_suffix ip sp Hwf Hn) as (q' & Hq' & Hs).
  assert (q' = q) as -> by congruence.
  unfold output_path_of. cbn [to_path]. rewrite Hs. reflexivity.
Qed.

(** X4. An output argument whose final component has no dot, or only a
    leading one, is taken as a directory, also when it names a file: the
    destination is [<input stem>.shp] below it. *)
Theorem dotless_output_is_directory (gp out : pathlike) :
  pathlike_wf gp ->
  PyStr.contains dot (PyStr.drop 1 (name (to_path out))) = false ->
  output_path_of (to_path gp) (Some out) =
    Ok (Path (root (to_path out))
             (parts (to_path out) ++ [stem (to_path gp) +:+ ".shp"])).
Proof.
  intros Hwf%to_path_wf Hd. unfold output_path_of.
  assert (suffix (to_path out) = "") as ->
    by by apply suffix_empty_iff, has_suffix_dotless.
  cbn [PyStr.lower]. rewrite bool_decide_true by done.
  by rewrite joinpath_stem.
Qed.

(** X5. When a regular file sits at the parent of the destination or above
    it, the call ends at [mkdir]: it raises an exception that is not
    [FileNotFoundError], the input is never read, and the disk is as it
    was. *)
Theorem file_in_the_way_stops_before_read (gp : pathlike)
    (sp : option pathlike) (fc : option crs_spec) (w : world)
    (q a : path) (c : string) :
  fs_wf (files w) ->
  output_path_of (to_path gp) sp = Ok q ->
  a ∈ self_and_parents (parent q) ->
  lookup_node (files w) a = Some (File c) ->
  exists e,
    is_FileNotFoundError e = false /\
    geojson_to_shapefile gp sp fc w =
      (Raise (Raised e),
       World (files w) (calls w ++ [CallMkdir (parent q) true true])).
Proof.
  intros Hwf Ho Ha Hc. rewrite geojson_to_shapefile_run, Ho. cbv zeta.
  destruct (mkdir (parent q) true true (files w)) as [f1|e] eqn:Em.
  - exfalso. pose proof (mkdir_ok_no_file _ _ _ Hwf Em) as Hno.
    unfold no_file_at in Hno. rewrite Forall_forall in Hno.
    by apply (Hno a Ha c).
  - exists e. split; [|reflexivity].
    unfold mkdir in Em. by eapply mkdir_parents_not_FileNotFound.
Qed.

(** X6. [mkdir(parents=True, exist_ok=True)] accepts what is there: on a
    path that is a directory it changes nothing, and after it has
    succeeded once, doing it again changes nothing. *)
Theorem mkdir_again_changes_nothing (p : path) (f : fs) :
  (is_dir f p = true -> mkdir p true true f = Ok f) /\
  (forall f1, fs_wf f -> mkdir p true true f = Ok f1 ->
              mkdir p true true f1 = Ok f1).
Proof.
  split; [apply mkdir_existing|]. intros f1 Hwf Hm.
  apply mkdir_existing. unfold mkdir in Hm.
  destruct (mkdir_parents_ok _ _ _ _ _ Hwf Hm) as (_ & Hd & _).
  rewrite rev_involutive in Hd. by destruct p.
Qed.

(** X7. When the dataset read has a reference system, [force_crs] plays no
    part: the call does the same, and leaves the same state, as without
    it, so a specifier that [set_crs] would refuse goes unnoticed. *)
Theorem force_crs_ignored_when_crs_present (gp : pathlike)
    (sp : option pathlike) (fc : option crs_spec) (w : world)
    (q : path) (f1 : fs) (gdf : GeoDataFrame) (c : CRS) :
  output_path_of (to_path gp) sp = Ok q ->
  mkdir (parent q) true true (files w) = Ok f1 ->
  read_file (AsPath (to_path gp)) f1 = Ok gdf ->
  crs gdf = Some c ->
  geojson_to_shapefile gp sp fc w = geojson_to_shapefile gp sp None w.
Proof.
  intros Ho Hm Hr Hc. rewrite !geojson_to_shapefile_run, Ho. cbv zeta.
  rewrite Hm, Hr. unfold labelled, label_calls. by rewrite Hc.
Qed.

(** X8. A call that returns has made these calls, in this order: [mkdir] on
    the parent of the destination, [read_file] on the input path,
    [set_crs] if the dataset had to be labelled, and [to_file] with the
    driver [ESRI Shapefile] on the path that is returned; the disk it leaves
    is the one [to_file] left. *)
Theorem successful_call_sequence (gp : pathlike) (sp : option pathlike)
    (fc : option crs_spec) (w : world) (q : path) :
  fst (geojson_to_shapefile gp sp fc w) = Ok q ->
  exists f1 gdf d f2,
    mkdir (parent q) true true (files w) = Ok f1 /\
    read_file (AsPath (to_path gp)) f1 = Ok gdf /\
    labelled gdf fc = Ok d /\
    to_file d q "ESRI Shapefile" f1 = (None, f2) /\
    snd (geojson_to_shapefile gp sp fc w) =
      World f2 (calls w ++
                [CallMkdir (parent q) true true;
                 CallReadFile (AsPath (to_path gp))] ++
                label_calls gdf fc ++ [CallToFile d q "ESRI Shapefile"]).
Proof.
  intros (Ho & f1 & gdf & d & f2 & Hm & Hr & Hl & Ht)%geojson_to_shapefile_returns.
  exists f1, gdf, d, f2. split_and!; [done..|].
  rewrite geojson_to_shapefile_run, Ho. cbv zeta.
  rewrite Hm, Hr, Hl, Ht. cbn [fst snd]. f_equal.
  by rewrite <- !app_assoc.
Qed.

(** X10. Without an output argument, an input path that has no final
    component (the working directory, the root) makes the call raise
    [ValueError] at once: no collaborator is called and the disk is not
    touched. *)
Theorem nameless_input_raises_at_once (gp : pathlike)
    (fc : option crs_spec) (w : world) :
  name (to_path gp) = "" ->
  exists msg,
    geojson_to_shapefile gp None fc w = (Raise (Raised (ValueError msg)), w).
Proof.
  intros Hn. rewrite geojson_to_shapefile_run. unfold output_path_of.
  rewrite with_suffix_shp, bool_decide_true by done. eauto.
Qed.

End ConverterFurther.

(** ** The normaliser, further *)

Section NormaliserFurther.

Context {lib : GeoLibrary}.
Import GeoUtils.

(** X9. [to_openeo_wkt] returns [None] for [None] only: for a string or a
    path it returns a string or raises. *)
Theorem to_openeo_wkt_none_only_for_none (aoi : option pathlike) (w : world) :
  fst (to_openeo_wkt aoi w) = Ok None <-> aoi = None.
Proof.
  split; [|by intros ->].
  destruct aoi as [src|]; [|done]. intros H. exfalso.
  destruct (read_as_file src) eqn:Hr.
  - rewrite (to_openeo_wkt_file_run src w Hr) in H. simpl in H.
    destruct (read_file src (files w)) as [gdf|]; [|done].
    destruct (unary_union gdf) as [u|]; [|done].
    by destruct (wkt u).
  - destruct src as [s|p]; [|done]. simpl in Hr.
    unfold to_openeo_wkt, bind in H. rewrite is_wkt_run in H.
    by destruct (loads s).
Qed.

End NormaliserFurther.

(** ** Runs *)

Section FurtherRuns.

Import GeoUtils Demo DemoLabelled PurePathFacts FileSystemFacts.

Lemma returned_name_ends_in_shp_witness :
  exists s t, name (of_str "out/.shp") = s +:+ t /\ PyStr.lower t = ".shp".
Proof.
  apply (returned_name_ends_in_shp (AsStr ".") (Some (AsStr "out")) None
           layer_world); [exact I | reflexivity].
Defined.

Lemma shp_input_is_overwritten_witness :
  output_path_of (of_str "layer.shp") None = Ok (of_str "layer.shp").
Proof.
  apply (proj1 (shp_input_is_overwritten (AsStr "layer.shp") None
                  layer_world eq_refl)).
Defined.

Lemma destination_is_stable_witness :
  output_path_of (of_str "other.json") (Some (AsPath (of_str "outdir/data.shp")))
    = Ok (of_str "outdir/data.shp").
Proof.
  apply (destination_is_stable (of_str "data.geojson") (of_str "other.json")
           (Some (AsStr "outdir/")));
    [apply of_str_wf | discriminate | reflexivity].
Defined.

Lemma dotless_output_is_directory_witness :
  output_path_of (of_str "data.geojson") (Some (AsStr ".hidden")) =
    Ok (of_str ".hidden/data.shp") /\
  output_path_of (of_str "data.geojson") (Some (AsStr "result")) =
    Ok (of_str "result/data.shp").
Proof.
  split.
  - exact (dotless_output_is_directory (AsStr "data.geojson")
             (AsStr ".hidden") I eq_refl).
  - exact (dotless_output_is_directory (AsStr "data.geojson")
             (AsStr "result") I eq_refl).
Defined.

Lemma file_in_the_way_stops_before_read_witness :
  exists e,
    is_FileNotFoundError e = false /\
    geojson_to_shapefile (AsStr "data.geojson")
      (Some (AsStr "blocker/sub/out.shp")) None demo_world =
      (Raise (Raised e),
       World demo_disk [CallMkdir (of_str "blocker/sub") true true]).
Proof.
  apply (file_in_the_way_stops_before_read (AsStr "data.geojson")
           (Some (AsStr "blocker/sub/out.shp")) None demo_world
           (of_str "blocker/sub/out.shp") (of_str "blocker") "x"
           demo_disk_wf eq_refl); [|reflexivity].
  apply list_elem_of_In. right. left. reflexivity.
Defined.

Lemma mkdir_again_changes_nothing_witness :
  mkdir (of_str ".") true true demo_disk = Ok demo_disk /\
  exists f1, mkdir (of_str "new/sub") true true demo_disk = Ok f1 /\
             mkdir (of_str "new/sub") true true f1 = Ok f1.
Proof.
  split.
  - by apply (proj1 (mkdir_again_changes_nothing (of_str ".") demo_disk)).
  - destruct (mkdir_parents_succeeds "" (rev (parts (of_str "new/sub")))
                demo_disk demo_disk_wf) as [f1 Hm].
    { repeat constructor; intros c; by vm_compute. }
    exists f1. split; [exact Hm|].
    by apply (proj2 (mkdir_again_changes_nothing (of_str "new/sub") demo_disk)
                f1 demo_disk_wf).
Defined.

Lemma force_crs_ignored_when_crs_present_witness :
  geojson_to_shapefile (AsStr "data.geojson") None
    (Some (CrsName "EPSG:bogus")) wgs84_world =
  geojson_to_shapefile (AsStr "data.geojson") None None wgs84_world.
Proof.
  eapply (force_crs_ignored_when_crs_present (lib := wgs84_library));
    reflexivity.
Defined.

Lemma successful_call_sequence_witness :
  length (calls (snd (geojson_to_shapefile (AsStr "data.geojson")
                        (Some (AsStr "outdir/")) None demo_world))) = 3%nat.
Proof.
  destruct (successful_call_sequence (AsStr "data.geojson")
              (Some (AsStr "outdir/")) None demo_world
              (of_str "outdir/data.shp") eq_refl)
    as (f1 & gdf & d & f2 & _ & _ & _ & _ & ->).
  cbn [calls]. unfold label_calls. by destruct (crs gdf).
Defined.

Lemma nameless_input_raises_at_once_witness :
  exists msg,
    geojson_to_shapefile (AsStr "/") None None demo_world =
      (Raise (Raised (ValueError msg)), demo_world).
Proof.
  by apply (nameless_input_raises_at_once (AsStr "/") None demo_world).
Defined.

Lemma to_openeo_wkt_none_only_for_none_witness :
  fst (to_openeo_wkt (Some (AsStr "data.geojson")) demo_world) <> Ok None.
Proof.
  intros H. by apply to_openeo_wkt_none_only_for_none in H.
Defined.

End FurtherRuns.
